(** * The online-course application: enrollment, exam submission and grading

    A shallow embedding of [onlinecourse/models.py] and of the views
    [check_if_enrolled], [enroll], [submit], [extract_answers] and
    [show_exam_result] of [onlinecourse/views.py], over an explicit database
    state, followed by the properties of the enrollment ledger and of the
    grading loop. *)

From stdpp Require Import gmap strings list fin_maps fin_sets sorting.

Local Open Scope Z_scope.

(** ** The persisted data: [models.py] *)

Module Models.

(** Primary keys are the integers of Django's automatic [id] field. *)
Definition pk : Type := Z.

(** [Enrollment.COURSE_MODES]. *)
Inductive CourseMode : Type := AUDIT | HONOR | BETA.

Record Course : Type := {
  name : string;
  description : string;
  total_enrollment : Z
}.

(** The largest value the integer column of [total_enrollment] holds (the
    database stores signed 64-bit integers).  The database refuses a row
    with a higher counter; the write of [course.save()] is modelled for the
    values the column holds, and what depends on a counter being raised is
    stated for counters below this bound. *)
Definition IntegerField_max : Z := 2 ^ 63 - 1.

(** [rating] (a float) is left out: no view reads or writes it. *)
Record Enrollment : Type := {
  enrollment_user : pk;
  enrollment_course : pk;
  date_enrolled : Z;
  mode : CourseMode
}.

Record Question : Type := {
  question_course : pk;
  question_content : string;
  grade : Z
}.

Record Choice : Type := {
  choice_question : pk;
  choice_content : string;
  is_correct : bool
}.

(** [choices] is the many-to-many relation of a submission: the set of the
    choice ids linked to it. *)
Record Submission : Type := {
  submission_enrollment : pk;
  submission_choices : gset pk
}.

(** One table per model, keyed by primary key ([Model.objects]). *)
Record DB : Type := {
  Course_objects : gmap pk Course;
  Enrollment_objects : gmap pk Enrollment;
  Question_objects : gmap pk Question;
  Choice_objects : gmap pk Choice;
  Submission_objects : gmap pk Submission
}.

#[global] Instance CourseMode_eq_dec : EqDecision CourseMode.
Proof. solve_decision. Defined.

(** The key the database gives to the next inserted row: one above the
    largest key in use. *)
Definition next_pk {A : Type} (table : gmap pk A) : pk :=
  1 + foldr Z.max 0 (map_to_list table).*1.

(** *** Query sets

    A query set is the sub-table of the rows it selects; [count()] is its
    [size], [set(...)] of it its [dom] (model instances compare and hash by
    primary key), iterating it walks [map_to_list]. *)

(** [course.question_set.all()] *)
Definition question_set (db : DB) (course_id : pk) : gmap pk Question :=
  filter (λ kq, question_course kq.2 = course_id) (Question_objects db).

(** [question.choice_set.filter(is_correct=True)] *)
Definition choice_set_correct (db : DB) (question_id : pk) : gmap pk Choice :=
  filter (λ kc, choice_question kc.2 = question_id ∧ is_correct kc.2 = true)
         (Choice_objects db).

(** [submission.choices.all()]: the join of the relation with the table of
    choices. *)
Definition submission_choices_all (db : DB) (submission : Submission)
  : gmap pk Choice :=
  filter (λ kc, kc.1 ∈ submission_choices submission) (Choice_objects db).

(** [choices.filter(question=question)] *)
Definition filter_question (choices : gmap pk Choice) (question_id : pk)
  : gmap pk Choice :=
  filter (λ kc, choice_question kc.2 = question_id) choices.

(** [Enrollment.objects.filter(user=user, course=course)] *)
Definition Enrollment_filter (db : DB) (user_id course_id : pk)
  : gmap pk Enrollment :=
  filter (λ ke, enrollment_user ke.2 = user_id
                ∧ enrollment_course ke.2 = course_id)
         (Enrollment_objects db).

(** [Question.is_get_score(self, selected_ids)] *)
Definition is_get_score (db : DB) (self : pk) (selected_ids : list pk) : bool :=
  let all_answers := size (choice_set_correct db self) in
  let selected_correct :=
    size (filter (λ kc, choice_question kc.2 = self ∧ is_correct kc.2 = true
                        ∧ kc.1 ∈ selected_ids)
                 (Choice_objects db)) in
  bool_decide (all_answers = selected_correct).

End Models.

(** ** The request handlers: [views.py] *)

Module Views.
Import Models.

(** [request.user]: a saved [User] row, or Django's [AnonymousUser]. *)
Inductive User : Type :=
| AuthenticatedUser (id : pk)
| AnonymousUser.

(** [user.id] *)
Definition user_id (user : User) : option pk :=
  match user with
  | AuthenticatedUser id => Some id
  | AnonymousUser => None
  end.

(** [user.is_authenticated] *)
Definition is_authenticated (user : User) : bool :=
  match user with
  | AuthenticatedUser _ => true
  | AnonymousUser => false
  end.

(** A request: its user, the day it is served ([now], the default of
    [date_enrolled]) and the form data.  [POST] lists the form's key/value
    pairs in order; a value is given as what Python's [int(value)] makes of
    it, [None] when [int] raises [ValueError]. *)
Record HttpRequest : Type := {
  user : User;
  now : Z;
  POST : list (string * option Z)
}.

(** The exceptions a handler can end with. *)
Inductive Exception : Type :=
| Http404
| DoesNotExist
| MultipleObjectsReturned
| ValueError
| TypeError
| IntegrityError.

#[global] Instance Exception_eq_dec : EqDecision Exception.
Proof. solve_decision. Defined.

(** What [show_exam_result] hands to the template. *)
Record ExamContext : Type := {
  context_course : pk * Course;
  context_grade : Z;
  context_choices : gmap pk Choice
}.

Inductive HttpResponse : Type :=
| HttpResponseRedirect (viewname : string) (args : list pk)
| Render (template_name : string) (context : ExamContext).

(** *** Handlers as state transformers

    A handler runs against the database and ends with a response or with
    an exception; what it wrote before an exception stays written (Django
    runs each query in autocommit mode). *)
Definition View (A : Type) : Type := DB → DB * (Exception + A).

#[global] Instance View_ret : MRet View := λ A a db, (db, inr a).

#[global] Instance View_bind : MBind View := λ A B f m db,
  match m db with
  | (db', inr a) => f a db'
  | (db', inl e) => (db', inl e)
  end.

Definition raise {A : Type} (e : Exception) : View A := λ db, (db, inl e).
Definition gets {A : Type} (f : DB → A) : View A := λ db, (db, inr (f db)).
Definition modify (f : DB → DB) : View unit := λ db, (f db, inr tt).

(** A [for] loop that threads an accumulator. *)
Fixpoint for_each {A B : Type} (l : list A) (body : B → A → View B) (acc : B)
  : View B :=
  match l with
  | [] => mret acc
  | x :: l' => acc' ← body acc x; for_each l' body acc'
  end.

(** *** Database access *)

(** [get_object_or_404(Course, pk=course_id)] *)
Definition get_object_or_404_Course (course_id : pk) : View Course :=
  course ← gets (λ db, Course_objects db !! course_id);
  match course with
  | Some c => mret c
  | None => raise Http404
  end.

(** [QuerySet.get()]: the single selected row, [DoesNotExist] when there is
    none, [MultipleObjectsReturned] when there are several. *)
Definition QuerySet_get {A : Type} (rows : gmap pk A) : View (pk * A) :=
  match map_to_list rows with
  | [] => raise DoesNotExist
  | [row] => mret row
  | _ :: _ :: _ => raise MultipleObjectsReturned
  end.

(** [Submission.objects.get(id=submission_id)] *)
Definition Submission_get (submission_id : pk) : View Submission :=
  submission ← gets (λ db, Submission_objects db !! submission_id);
  match submission with
  | Some s => mret s
  | None => raise DoesNotExist
  end.

(** [Enrollment.objects.get(user=user, course=course)].  An anonymous user
    is no value for the [user] column: Django raises [TypeError]. *)
Definition Enrollment_get (user : User) (course_id : pk)
  : View (pk * Enrollment) :=
  match user_id user with
  | Some uid =>
      rows ← gets (λ db, Enrollment_filter db uid course_id);
      QuerySet_get rows
  | None => raise TypeError
  end.

(** [Enrollment.objects.create(user=user, course=course, mode='honor')] *)
Definition Enrollment_create (uid course_id : pk) (today : Z) (m : CourseMode)
  : View pk :=
  id ← gets (λ db, next_pk (Enrollment_objects db));
  modify (λ db,
    {| Course_objects := Course_objects db;
       Enrollment_objects :=
         <[id := {| enrollment_user := uid; enrollment_course := course_id;
                    date_enrolled := today; mode := m |}]>
           (Enrollment_objects db);
       Question_objects := Question_objects db;
       Choice_objects := Choice_objects db;
       Submission_objects := Submission_objects db |});;
  mret id.

(** [course.save()]: writes the fields of the in-memory course to its row
    (a counter within the range of its column, see [IntegerField_max]). *)
Definition Course_save (course_id : pk) (course : Course) : View unit :=
  modify (λ db,
    {| Course_objects := <[course_id := course]> (Course_objects db);
       Enrollment_objects := Enrollment_objects db;
       Question_objects := Question_objects db;
       Choice_objects := Choice_objects db;
       Submission_objects := Submission_objects db |}).

Definition Submission_put (id : pk) (s : Submission) (db : DB) : DB :=
  {| Course_objects := Course_objects db;
     Enrollment_objects := Enrollment_objects db;
     Question_objects := Question_objects db;
     Choice_objects := Choice_objects db;
     Submission_objects := <[id := s]> (Submission_objects db) |}.

(** [Submission.objects.create(enrollment=enrollment)] *)
Definition Submission_create (enrollment_id : pk) : View pk :=
  id ← gets (λ db, next_pk (Submission_objects db));
  modify (Submission_put id {| submission_enrollment := enrollment_id;
                               submission_choices := ∅ |});;
  mret id.

(** [submission.choices.set(choices)] with a list of ids: the relation
    becomes the set of these ids.  Every id is a foreign key into the table
    of choices; the database refuses one that names no row. *)
Definition Submission_choices_set (submission_id : pk) (ids : list pk)
  : View unit :=
  known ← gets (λ db,
    forallb (λ id, bool_decide (is_Some (Choice_objects db !! id))) ids);
  if known : bool then
    submission ← Submission_get submission_id;
    modify (Submission_put submission_id
              {| submission_enrollment := submission_enrollment submission;
                 submission_choices := list_to_set ids |})
  else raise IntegrityError.

(** *** [check_if_enrolled] *)
Definition check_if_enrolled (user : User) (course_id : pk) : View bool :=
  let is_enrolled := false in
  match user_id user with
  | Some uid =>
      num_results ← gets (λ db, size (Enrollment_filter db uid course_id));
      if bool_decide (0 < num_results)%nat then mret true else mret is_enrolled
  | None => mret is_enrolled
  end.

(** *** [extract_answers] *)

(** [for key in request.POST]: every key once.  A key sent several times is
    listed here at its last occurrence and by Python at its first; only the
    order of the answers depends on it, and [submit] stores them as a set. *)
Definition POST_keys (post : list (string * option Z)) : list string :=
  remove_dups post.*1.

(** [request.POST[key]]: the last value sent under the key. *)
Definition POST_getitem (post : list (string * option Z)) (key : string)
  : option (option Z) :=
  last (filter (λ kv, kv.1 = key) post) ≫= λ kv, Some kv.2.

Fixpoint extract_answers_loop (post : list (string * option Z))
    (keys : list string) (submitted_answers : list Z)
  : Exception + list Z :=
  match keys with
  | [] => inr submitted_answers
  | key :: keys' =>
      if String.prefix "choice" key then
        match POST_getitem post key with
        | Some (Some choice_id) =>
            extract_answers_loop post keys' (submitted_answers ++ [choice_id])
        | _ => inl ValueError
        end
      else extract_answers_loop post keys' submitted_answers
  end.

Definition extract_answers (request : HttpRequest) : Exception + list Z :=
  extract_answers_loop (POST request) (POST_keys (POST request)) [].

Definition lift_result {A : Type} (r : Exception + A) : View A :=
  match r with
  | inl e => raise e
  | inr a => mret a
  end.

(** *** [submit] *)
Definition submit (request : HttpRequest) (course_id : pk) : View HttpResponse :=
  course ← get_object_or_404_Course course_id;
  let user := user request in
  enrollment ← Enrollment_get user course_id;
  submission_id ← Submission_create enrollment.1;
  choices ← lift_result (extract_answers request);
  Submission_choices_set submission_id choices;;
  mret (HttpResponseRedirect "onlinecourse:exam_result"
          [course_id; submission_id]).

(** *** [show_exam_result] *)

(** The body of the loop over the questions, [choices] being the choices of
    the submission: the query for the correct choices, the selection of the
    submitted choices of the question, the comparison of the two sets and the
    update of [total_score]. *)
Definition grade_question (choices : gmap pk Choice) (total_score : Z)
    (question : pk * Question) : View Z :=
  correct_choices ← gets (λ db, choice_set_correct db question.1);
  let selected_choices := filter_question choices question.1 in
  if bool_decide (dom correct_choices = dom selected_choices)
  then mret (total_score + grade question.2)
  else mret total_score.

Definition show_exam_result (request : HttpRequest)
    (course_id submission_id : pk) : View HttpResponse :=
  course ← get_object_or_404_Course course_id;
  submission ← Submission_get submission_id;
  choices ← gets (λ db, submission_choices_all db submission);
  let total_score := 0 in
  questions ← gets (λ db, question_set db course_id);
  total_score ← for_each (map_to_list questions)
                         (grade_question choices) total_score;
  mret (Render "onlinecourse/exam_result_bootstrap.html"
          {| context_course := (course_id, course);
             context_grade := total_score;
             context_choices := choices |}).

(** *** [enroll] *)
Definition enroll (request : HttpRequest) (course_id : pk) : View HttpResponse :=
  course ← get_object_or_404_Course course_id;
  let user := user request in
  is_enrolled ← check_if_enrolled user course_id;
  (if negb is_enrolled && is_authenticated user then
     match user_id user with
     | Some uid =>
         Enrollment_create uid course_id (now request) HONOR;;
         Course_save course_id
           {| name := name course; description := description course;
              total_enrollment := total_enrollment course + 1 |}
     | None => raise TypeError
     end
   else mret tt);;
  mret (HttpResponseRedirect "onlinecourse:course_details" [course_id]).

(** A series of [enroll] requests served one after the other; a request
    that ends with an exception leaves the database as it was and the next
    one is served all the same. *)
Definition enroll_all (calls : list (HttpRequest * pk)) (db : DB) : DB :=
  fold_left (λ db call, (enroll call.1 call.2 db).1) calls db.

End Views.

(** ** The grading policy and the ledger invariants, in the words of the
    specification *)

Module Spec.
Import Models.

(** Sum of an integer-valued function over a list. *)
Definition sum_over {A : Type} (f : A → Z) (l : list A) : Z :=
  foldr (λ x acc, f x + acc) 0 l.

(** The choice [c] belongs to the question [q]. *)
Definition belongs_to (db : DB) (q c : pk) : Prop :=
  choice_question <$> Choice_objects db !! c = Some q.

(** The choice [c] is one of the question's choices flagged correct. *)
Definition flagged_correct (db : DB) (q c : pk) : Prop :=
  belongs_to db q c ∧ is_correct <$> Choice_objects db !! c = Some true.

(** The choice [c] is one of the submission's selected choices that belong
    to the question. *)
Definition selected (db : DB) (s : Submission) (q c : pk) : Prop :=
  c ∈ submission_choices s ∧ belongs_to db q c.

#[global] Instance belongs_to_dec db q c : Decision (belongs_to db q c).
Proof. unfold belongs_to. apply _. Defined.

#[global] Instance flagged_correct_dec db q c : Decision (flagged_correct db q c).
Proof. unfold flagged_correct. apply _. Defined.

#[global] Instance selected_dec db s q c : Decision (selected db s q c).
Proof. unfold selected. apply _. Defined.

(** The set of the question's choices flagged correct. *)
Definition correct_set (db : DB) (q : pk) : gset pk :=
  filter (flagged_correct db q) (dom (Choice_objects db)).

(** The set of the submission's selected choices belonging to the
    question. *)
Definition selected_set (db : DB) (s : Submission) (q : pk) : gset pk :=
  filter (selected db s q) (dom (Choice_objects db)).

(** The points awarded for one question: its full point value when the two
    sets are equal, nothing otherwise. *)
Definition awarded (db : DB) (s : Submission) (question : pk * Question) : Z :=
  if decide (selected_set db s question.1 = correct_set db question.1)
  then grade question.2 else 0.

(** An [Enrollment] exists for the learner and the course. *)
Definition enrolled (db : DB) (user_id course_id : pk) : Prop :=
  ∃ id e, Enrollment_objects db !! id = Some e
          ∧ enrollment_user e = user_id ∧ enrollment_course e = course_id.

(** The number of [Enrollment] rows of a course. *)
Definition enrollment_rows (db : DB) (course_id : pk) : nat :=
  size (filter (λ ke : pk * Enrollment, enrollment_course ke.2 = course_id)
               (Enrollment_objects db)).

(** The learners with an [Enrollment] for the course, each once. *)
Definition learners (db : DB) (course_id : pk) : gset pk :=
  map_img (enrollment_user <$>
           filter (λ ke : pk * Enrollment, enrollment_course ke.2 = course_id)
                  (Enrollment_objects db)).

(** Every course's counter is the number of its enrollment rows. *)
Definition counter_counts_rows (db : DB) : Prop :=
  ∀ course_id course, Course_objects db !! course_id = Some course →
    total_enrollment course = Z.of_nat (enrollment_rows db course_id).

(** Every course's counter is the number of distinct learners enrolled in
    it. *)
Definition counter_counts_learners (db : DB) : Prop :=
  ∀ course_id course, Course_objects db !! course_id = Some course →
    total_enrollment course = Z.of_nat (size (learners db course_id)).

(** The submission belongs to an enrollment in the course. *)
Definition in_enrollment_chain (db : DB) (s : Submission) (course_id : pk) : Prop :=
  enrollment_course <$> Enrollment_objects db !! submission_enrollment s
  = Some course_id.

End Spec.

(** An instructor's correction of the answer key through the admin site:
    the [is_correct] flag of one choice is flipped. *)
Definition flip_is_correct (choice_id : Models.pk) (db : Models.DB) : Models.DB :=
  let flip (c : Models.Choice) :=
    {| Models.choice_question := Models.choice_question c;
       Models.choice_content := Models.choice_content c;
       Models.is_correct := negb (Models.is_correct c) |} in
  {| Models.Course_objects := Models.Course_objects db;
     Models.Enrollment_objects := Models.Enrollment_objects db;
     Models.Question_objects := Models.Question_objects db;
     Models.Choice_objects := alter flip choice_id (Models.Choice_objects db);
     Models.Submission_objects := Models.Submission_objects db |}.

Import Models Views Spec.

(** The database after [enroll] has enrolled a learner: one more row in the
    table of enrollments, under the next key, and the counter of the course
    one higher. *)
Definition with_enrollment (db : DB) (uid course_id : pk) (course : Course)
    (today : Z) : DB :=
  {| Course_objects :=
       <[course_id := {| name := name course; description := description course;
                         total_enrollment := total_enrollment course + 1 |}]>
         (Course_objects db);
     Enrollment_objects :=
       <[next_pk (Enrollment_objects db) :=
           {| enrollment_user := uid; enrollment_course := course_id;
              date_enrolled := today; mode := HONOR |}]>
         (Enrollment_objects db);
     Question_objects := Question_objects db;
     Choice_objects := Choice_objects db;
     Submission_objects := Submission_objects db |}.

(** The questions of a course, listed each once in any order. *)
Definition lists_questions (db : DB) (course_id : pk)
    (questions : list (pk * Question)) : Prop :=
  NoDup questions
  ∧ ∀ qid q, (qid, q) ∈ questions ↔
             Question_objects db !! qid = Some q ∧ question_course q = course_id.

(** ** A sample database

    Course 1 has three questions worth 50, 30 and 20 points; course 2 has one
    question, worth 10 points, none of whose choices is flagged correct.
    Learner 7 is enrolled in course 1 and learner 8 in course 2. *)
Module Sample.

Definition choice (question : pk) (content : string) (correct : bool) : Choice :=
  {| choice_question := question; choice_content := content;
     is_correct := correct |}.

Definition exam_db : DB :=
  {| Course_objects :=
       {[ 1 := {| name := "Python"; description := "basics";
                  total_enrollment := 1 |};
          2 := {| name := "SQL"; description := "queries";
                  total_enrollment := 1 |} ]};
     Enrollment_objects :=
       {[ 1 := {| enrollment_user := 7; enrollment_course := 1;
                  date_enrolled := 100; mode := HONOR |};
          2 := {| enrollment_user := 8; enrollment_course := 2;
                  date_enrolled := 101; mode := HONOR |} ]};
     Question_objects :=
       {[ 1 := {| question_course := 1; question_content := "first";
                  grade := 50 |};
          2 := {| question_course := 1; question_content := "second";
                  grade := 30 |};
          3 := {| question_course := 1; question_content := "third";
                  grade := 20 |};
          4 := {| question_course := 2; question_content := "trick";
                  grade := 10 |} ]};
     Choice_objects :=
       {[ 1 := choice 1 "A" true; 2 := choice 1 "B" true;
          3 := choice 1 "C" false; 4 := choice 1 "D" false;
          5 := choice 2 "E" true; 6 := choice 2 "F" false;
          7 := choice 3 "G" true; 8 := choice 3 "H" false;
          9 := choice 4 "I" false; 10 := choice 4 "J" false ]};
     Submission_objects :=
       {[ 1 := {| submission_enrollment := 1; submission_choices := {[ 1; 2 ]} |};
          2 := {| submission_enrollment := 2; submission_choices := ∅ |};
          3 := {| submission_enrollment := 1; submission_choices := {[ 1 ]} |};
          4 := {| submission_enrollment := 1;
                  submission_choices := {[ 1; 2; 4 ]} |} ]} |}.

Definition request_of (u : User) : HttpRequest :=
  {| user := u; now := 102; POST := [("choice_1"%string, Some 1)] |}.

(** The sample database with a second enrollment row of learner 7 in
    course 1, the counter of the course counting both rows. *)
Definition twice_enrolled_db : DB :=
  {| Course_objects :=
       <[1 := {| name := "Python"; description := "basics";
                 total_enrollment := 2 |}]> (Course_objects exam_db);
     Enrollment_objects :=
       <[3 := {| enrollment_user := 7; enrollment_course := 1;
                 date_enrolled := 100; mode := AUDIT |}]>
         (Enrollment_objects exam_db);
     Question_objects := Question_objects exam_db;
     Choice_objects := Choice_objects exam_db;
     Submission_objects := Submission_objects exam_db |}.

End Sample.

(** ** The course list: [CourseListView.get_queryset] *)

Module CourseList.

(** The order of [order_by('-total_enrollment')]: higher counters first. *)
Definition more_enrolled (a b : pk * Course) : Prop :=
  total_enrollment b.2 ≤ total_enrollment a.2.

#[global] Instance more_enrolled_dec : RelDecision more_enrolled.
Proof. intros a b. unfold more_enrolled. apply _. Defined.

(** [Course.objects.order_by('-total_enrollment')[:10]].  The query names no
    second key: courses with equal counters come as the database yields them,
    here in the order of the table. *)
Definition top_courses (db : DB) : list (pk * Course) :=
  take 10 (merge_sort more_enrolled (map_to_list (Course_objects db))).

(** A course object of the list with its [is_enrolled] attribute, [False] on
    the class. *)
Record ListedCourse : Type := {
  listed_id : pk;
  listed_course : Course;
  is_enrolled : bool
}.

(** The body of the loop over the courses; [listed] are the courses already
    visited. *)
Definition mark_enrolled (user : User) (listed : list ListedCourse)
    (course : pk * Course) : View (list ListedCourse) :=
  if is_authenticated user then
    enrolled_flag ← check_if_enrolled user course.1;
    mret (listed ++ [{| listed_id := course.1; listed_course := course.2;
                        is_enrolled := enrolled_flag |}])
  else
    mret (listed ++ [{| listed_id := course.1; listed_course := course.2;
                        is_enrolled := false |}]).

Definition get_queryset (request : HttpRequest) : View (list ListedCourse) :=
  let user := user request in
  courses ← gets top_courses;
  for_each courses (mark_enrolled user) [].

End CourseList.

Import CourseList.

(** ** Notions used to state further properties *)

(** [key.startswith('choice')] *)
Definition is_choice_key (key : string) : Prop := String.prefix "choice" key = true.

#[global] Instance is_choice_key_dec (key : string) : Decision (is_choice_key key).
Proof. unfold is_choice_key. apply _. Defined.

(** The value (last) sent under a key of the form is the integer [id]. *)
Definition answers (post : list (string * option Z)) (key : string) (id : Z)
  : Prop :=
  POST_getitem post key = Some (Some id).

(** The keys of the form that name an answer. *)
Definition choice_keys (post : list (string * option Z)) : list string :=
  filter is_choice_key (POST_keys post).

(** The points of all the questions of a course together. *)
Definition max_score (db : DB) (course_id : pk) : Z :=
  sum_over (λ question : pk * Question, grade question.2)
           (map_to_list (question_set db course_id)).

(** No learner has two enrollment rows for one course. *)
Definition enrolled_at_most_once (db : DB) : Prop :=
  ∀ id1 id2 e1 e2,
    Enrollment_objects db !! id1 = Some e1 →
    Enrollment_objects db !! id2 = Some e2 →
    enrollment_user e1 = enrollment_user e2 →
    enrollment_course e1 = enrollment_course e2 →
    id1 = id2.

(** ** Running handlers *)

Section monad.
Context {A B : Type}.

Lemma run_bind (m : View A) (f : A → View B) (db : DB) :
  (m ≫= f) db =
  match m db with
  | (db', inr a) => f a db'
  | (db', inl e) => (db', inl e)
  end.
Proof. reflexivity. Qed.

Lemma run_gets_bind (g : DB → A) (f : A → View B) (db : DB) :
  (gets g ≫= f) db = f (g db) db.
Proof. reflexivity. Qed.

Lemma run_ret_bind (a : A) (f : A → View B) (db : DB) :
  (mret a ≫= f) db = f a db.
Proof. reflexivity. Qed.

Lemma run_raise_bind (e : Exception) (f : A → View B) (db : DB) :
  (raise e ≫= f) db = (db, inl e).
Proof. reflexivity. Qed.
End monad.

Lemma get_object_or_404_Course_run (course_id : pk) (db : DB) :
  get_object_or_404_Course course_id db =
  match Course_objects db !! course_id with
  | Some c => (db, inr c)
  | None => (db, inl Http404)
  end.
Proof.
  unfold get_object_or_404_Course. rewrite run_gets_bind.
  by destruct (Course_objects db !! course_id).
Qed.

Lemma Submission_get_run (submission_id : pk) (db : DB) :
  Submission_get submission_id db =
  match Submission_objects db !! submission_id with
  | Some s => (db, inr s)
  | None => (db, inl DoesNotExist)
  end.
Proof.
  unfold Submission_get. rewrite run_gets_bind.
  by destruct (Submission_objects db !! submission_id).
Qed.

(** ** Grading *)

Section grading.
Variable db : DB.
Variable s : Submission.

Lemma elem_of_correct_set (q c : pk) :
  c ∈ correct_set db q ↔
  ∃ ch, Choice_objects db !! c = Some ch
        ∧ choice_question ch = q ∧ is_correct ch = true.
Proof.
  unfold correct_set, flagged_correct, belongs_to.
  rewrite elem_of_filter, elem_of_dom. split.
  - intros [[Hq Hc] [ch Hch]]. rewrite Hch in Hq, Hc. simpl in *.
    exists ch. by simplify_eq.
  - intros (ch & Hch & Hq & Hc). rewrite Hch. simpl. rewrite Hq, Hc. eauto.
Qed.

Lemma elem_of_selected_set (q c : pk) :
  c ∈ selected_set db s q ↔
  c ∈ submission_choices s
  ∧ ∃ ch, Choice_objects db !! c = Some ch ∧ choice_question ch = q.
Proof.
  unfold selected_set, selected, belongs_to.
  rewrite elem_of_filter, elem_of_dom. split.
  - intros [[Hs Hq] [ch Hch]]. rewrite Hch in Hq. simpl in *.
    split; [done|]. exists ch. by simplify_eq.
  - intros (Hs & ch & Hch & Hq). rewrite Hch. simpl. rewrite Hq. eauto.
Qed.

(** [set(correct_choices)] is the set of the correct choices. *)
Lemma dom_choice_set_correct (q : pk) :
  dom (choice_set_correct db q) = correct_set db q.
Proof.
  apply set_eq. intros c.
  rewrite elem_of_correct_set, elem_of_dom. unfold choice_set_correct.
  split.
  - intros [ch Hch]. apply map_lookup_filter_Some in Hch as [Hch [Hq Hc]].
    by exists ch.
  - intros (ch & Hch & Hq & Hc). exists ch.
    by apply map_lookup_filter_Some.
Qed.

(** [set(selected_choices)] is the set of the selected choices. *)
Lemma dom_selected_choices (q : pk) :
  dom (filter_question (submission_choices_all db s) q) = selected_set db s q.
Proof.
  apply set_eq. intros c.
  rewrite elem_of_selected_set, elem_of_dom.
  unfold filter_question, submission_choices_all. split.
  - intros [ch Hch]. apply map_lookup_filter_Some in Hch as [Hch Hq].
    apply map_lookup_filter_Some in Hch as [Hch Hs].
    split; [done|]. by exists ch.
  - intros (Hs & ch & Hch & Hq). exists ch.
    apply map_lookup_filter_Some. split; [|done].
    by apply map_lookup_filter_Some.
Qed.

(** One turn of the loop adds the points awarded for the question and
    writes nothing. *)
Lemma grade_question_run (total : Z) (question : pk * Question) :
  grade_question (submission_choices_all db s) total question db
  = (db, inr (total + awarded db s question)).
Proof.
  unfold grade_question. rewrite run_gets_bind. cbv zeta.
  rewrite dom_choice_set_correct, dom_selected_choices.
  unfold awarded. case_bool_decide as Heq.
  - rewrite decide_True by done. reflexivity.
  - rewrite decide_False by done. unfold mret, View_ret. do 2 f_equal. lia.
Qed.

Lemma for_each_grade_question_run (l : list (pk * Question)) (total : Z) :
  for_each l (grade_question (submission_choices_all db s)) total db
  = (db, inr (total + sum_over (awarded db s) l)).
Proof.
  revert total. induction l as [|question l IH]; intros total; simpl.
  - unfold mret, View_ret. do 2 f_equal. lia.
  - rewrite run_bind, grade_question_run, IH. do 2 f_equal. lia.
Qed.

End grading.

Lemma sum_over_Permutation {A : Type} (f : A → Z) (l1 l2 : list A) :
  l1 ≡ₚ l2 → sum_over f l1 = sum_over f l2.
Proof.
  induction 1; simpl; lia.
Qed.

(** What [show_exam_result] does on an existing course and submission. *)
Lemma show_exam_result_run (request : HttpRequest) (db : DB)
    (course_id submission_id : pk) (course : Course) (s : Submission) :
  Course_objects db !! course_id = Some course →
  Submission_objects db !! submission_id = Some s →
  show_exam_result request course_id submission_id db =
  (db, inr (Render "onlinecourse/exam_result_bootstrap.html"
              {| context_course := (course_id, course);
                 context_grade :=
                   sum_over (awarded db s) (map_to_list (question_set db course_id));
                 context_choices := submission_choices_all db s |})).
Proof.
  intros Hc Hs. unfold show_exam_result.
  rewrite run_bind, get_object_or_404_Course_run, Hc.
  rewrite run_bind, Submission_get_run, Hs.
  rewrite !run_gets_bind, run_bind, for_each_grade_question_run.
  reflexivity.
Qed.

Lemma map_to_list_lists_questions (db : DB) (course_id : pk) :
  lists_questions db course_id (map_to_list (question_set db course_id)).
Proof.
  split; [apply NoDup_map_to_list|]. intros qid q.
  rewrite elem_of_map_to_list. unfold question_set.
  by rewrite map_lookup_filter_Some.
Qed.

Lemma lists_questions_Permutation (db : DB) (course_id : pk)
    (l1 l2 : list (pk * Question)) :
  lists_questions db course_id l1 → lists_questions db course_id l2 → l1 ≡ₚ l2.
Proof.
  intros [Hnd1 H1] [Hnd2 H2]. apply NoDup_Permutation; [done..|].
  intros [qid q]. by rewrite H1, H2.
Qed.

Lemma awarded_cases (db : DB) (s : Submission) (question : pk * Question) :
  (selected_set db s question.1 = correct_set db question.1
     → awarded db s question = grade question.2)
  ∧ (selected_set db s question.1 ≠ correct_set db question.1
     → awarded db s question = 0).
Proof.
  unfold awarded. split; intros H.
  - by rewrite decide_True.
  - by rewrite decide_False.
Qed.

(** C1. On an existing course and submission [show_exam_result] returns, as
    the grade, the sum over the questions of the course (listed each once, in
    whatever order) of the points awarded for each; a question is awarded its
    point value when the set of the selected choices that belong to it equals
    the set of its choices flagged correct, and nothing otherwise, in
    particular nothing when one set is a strict subset of the other. *)
Theorem show_exam_result_total_score (request : HttpRequest) (db : DB)
    (course_id submission_id : pk) (course : Course) (s : Submission) :
  Course_objects db !! course_id = Some course →
  Submission_objects db !! submission_id = Some s →
  ∃ context,
    show_exam_result request course_id submission_id db
    = (db, inr (Render "onlinecourse/exam_result_bootstrap.html" context))
    ∧ (∀ questions, lists_questions db course_id questions →
         context_grade context = sum_over (awarded db s) questions)
    ∧ (∀ qid q,
         ((∀ c, selected db s qid c ↔ flagged_correct db qid c)
            → awarded db s (qid, q) = grade q)
         ∧ (¬ (∀ c, selected db s qid c ↔ flagged_correct db qid c)
            → awarded db s (qid, q) = 0)
         ∧ (selected_set db s qid ⊂ correct_set db qid
            → awarded db s (qid, q) = 0)
         ∧ (correct_set db qid ⊂ selected_set db s qid
            → awarded db s (qid, q) = 0)).
Proof.
  intros Hc Hs. eexists. split; [by apply show_exam_result_run|]. split.
  - intros questions Hq. simpl. apply sum_over_Permutation.
    eapply lists_questions_Permutation; [apply map_to_list_lists_questions|done].
  - intros qid q.
    assert (selected_set db s qid = correct_set db qid
            ↔ ∀ c, selected db s qid c ↔ flagged_correct db qid c) as Hsets.
    { unfold selected_set, correct_set. rewrite set_eq. split.
      - intros H c. specialize (H c). rewrite !elem_of_filter, elem_of_dom in H.
        split; intros Hx.
        + apply H. split; [done|]. destruct Hx as [_ Hb]. unfold belongs_to in Hb.
          by destruct (Choice_objects db !! c).
        + apply H. split; [done|]. destruct Hx as [Hb _]. unfold belongs_to in Hb.
          by destruct (Choice_objects db !! c).
      - intros H c. rewrite !elem_of_filter. by rewrite H. }
    destruct (awarded_cases db s (qid, q)) as [Heq Hne]. simpl in Heq, Hne.
    repeat split.
    + intros H. by apply Heq, Hsets.
    + intros H. apply Hne. by rewrite Hsets.
    + intros [_ H]. apply Hne. intros E. apply H. by rewrite E.
    + intros [_ H]. apply Hne. intros E. apply H. by rewrite E.
Qed.

Lemma show_exam_result_total_score_witness :
  ∃ context,
    show_exam_result (Sample.request_of (AuthenticatedUser 7)) 1 1 Sample.exam_db
    = (Sample.exam_db,
       inr (Render "onlinecourse/exam_result_bootstrap.html" context))
    ∧ context_grade context = 50.
Proof.
  edestruct (show_exam_result_total_score
               (Sample.request_of (AuthenticatedUser 7)) Sample.exam_db 1 1)
    as (context & Hrun & Hsum & _); [reflexivity | reflexivity |].
  exists context. split; [exact Hrun|].
  rewrite (Hsum _ (map_to_list_lists_questions _ _)). vm_compute. reflexivity.
Defined.

(** *** Questions without a correct choice *)

Lemma correct_set_empty (db : DB) (q : pk) :
  correct_set db q = ∅ ↔ ∀ c, ¬ flagged_correct db q c.
Proof.
  unfold correct_set. split.
  - intros H c Hc. apply (not_elem_of_empty (C:=gset pk) c). rewrite <-H.
    apply elem_of_filter. split; [done|]. destruct Hc as [Hb _].
    unfold belongs_to in Hb. apply elem_of_dom.
    by destruct (Choice_objects db !! c).
  - intros H. apply set_eq. intros c. rewrite elem_of_filter.
    split; [|by intros ?%not_elem_of_empty]. intros [Hc _]. by destruct (H c).
Qed.

Lemma selected_set_empty (db : DB) (s : Submission) (q : pk) :
  selected_set db s q = ∅ ↔ ∀ c, ¬ selected db s q c.
Proof.
  unfold selected_set. split.
  - intros H c Hc. apply (not_elem_of_empty (C:=gset pk) c). rewrite <-H.
    apply elem_of_filter. split; [done|]. destruct Hc as [_ Hb].
    unfold belongs_to in Hb. apply elem_of_dom.
    by destruct (Choice_objects db !! c).
  - intros H. apply set_eq. intros c. rewrite elem_of_filter.
    split; [|by intros ?%not_elem_of_empty]. intros [Hc _]. by destruct (H c).
Qed.

Lemma awarded_empty_sets (db : DB) (s : Submission) (question : pk * Question) :
  (∀ c, ¬ flagged_correct db question.1 c) →
  (∀ c, ¬ selected db s question.1 c) →
  awarded db s question = grade question.2.
Proof.
  intros Hc%correct_set_empty Hs%selected_set_empty.
  apply awarded_cases. by rewrite Hc, Hs.
Qed.

(** The grade splits into the points of one question of the course and the
    points of the others. *)
Lemma total_score_split (db : DB) (s : Submission) (course_id qid : pk)
    (q : Question) :
  Question_objects db !! qid = Some q →
  question_course q = course_id →
  sum_over (awarded db s) (map_to_list (question_set db course_id))
  = awarded db s (qid, q)
    + sum_over (awarded db s) (map_to_list (delete qid (question_set db course_id))).
Proof.
  intros Hq Hc.
  assert (question_set db course_id !! qid = Some q) as Hin.
  { unfold question_set. by apply map_lookup_filter_Some. }
  by rewrite <-(sum_over_Permutation _ _ _ (map_to_list_delete _ _ _ Hin)).
Qed.

(** C3. A question of the course none of whose choices is flagged correct,
    graded against a submission that selects none of its choices, is awarded
    its full point value: the turn of the loop for it adds [grade] to the
    running total, and the grade returned is [grade] plus the points of the
    other questions of the course. *)
Theorem empty_selection_awards_full_points (request : HttpRequest) (db : DB)
    (course_id submission_id qid : pk) (course : Course) (s : Submission)
    (q : Question) :
  Course_objects db !! course_id = Some course →
  Submission_objects db !! submission_id = Some s →
  Question_objects db !! qid = Some q →
  question_course q = course_id →
  (∀ c, ¬ flagged_correct db qid c) →
  (∀ c, ¬ selected db s qid c) →
  (∀ total, grade_question (submission_choices_all db s) total (qid, q) db
            = (db, inr (total + grade q)))
  ∧ ∃ context,
      show_exam_result request course_id submission_id db
      = (db, inr (Render "onlinecourse/exam_result_bootstrap.html" context))
      ∧ context_grade context
        = grade q + sum_over (awarded db s)
                      (map_to_list (delete qid (question_set db course_id))).
Proof.
  intros Hc Hs Hq Hqc Hcorrect Hselected.
  pose proof (awarded_empty_sets db s (qid, q) Hcorrect Hselected) as Haw.
  simpl in Haw. split.
  - intros total. by rewrite grade_question_run, Haw.
  - eexists. split; [by apply show_exam_result_run|]. simpl.
    by rewrite (total_score_split db s course_id qid q), Haw.
Qed.

Lemma empty_selection_awards_full_points_witness :
  (∀ total,
     grade_question
       (submission_choices_all Sample.exam_db
          {| submission_enrollment := 2; submission_choices := ∅ |})
       total (4, {| question_course := 2; question_content := "trick";
                    grade := 10 |}) Sample.exam_db
     = (Sample.exam_db, inr (total + 10)))
  ∧ ∃ context,
      show_exam_result (Sample.request_of (AuthenticatedUser 8)) 2 2 Sample.exam_db
      = (Sample.exam_db,
         inr (Render "onlinecourse/exam_result_bootstrap.html" context))
      ∧ context_grade context = 10.
Proof.
  edestruct (empty_selection_awards_full_points
               (Sample.request_of (AuthenticatedUser 8)) Sample.exam_db 2 2 4)
    as [Hturn (context & Hrun & Hgrade)];
    [reflexivity | reflexivity | reflexivity | reflexivity | | | ].
  - apply correct_set_empty. vm_compute. reflexivity.
  - apply selected_set_empty. vm_compute. reflexivity.
  - split; [exact Hturn|]. exists context. split; [exact Hrun|].
    rewrite Hgrade. vm_compute. reflexivity.
Defined.

(** C2, as the code has it.  A question of the course none of whose choices
    is flagged correct, graded against a submission that selects none of its
    choices, is awarded its full point value: the turn of the loop for it
    adds [grade] to the running total, and the grade returned is [grade] plus
    the points of the other questions of the course.  It is awarded 0 points
    only when its point value is 0. *)
Theorem empty_selection_zero_only_if_worthless (request : HttpRequest) (db : DB)
    (course_id submission_id qid : pk) (course : Course) (s : Submission)
    (q : Question) :
  Course_objects db !! course_id = Some course →
  Submission_objects db !! submission_id = Some s →
  Question_objects db !! qid = Some q →
  question_course q = course_id →
  (∀ c, ¬ flagged_correct db qid c) →
  (∀ c, ¬ selected db s qid c) →
  let others :=
    sum_over (awarded db s)
             (map_to_list (delete qid (question_set db course_id))) in
  (∀ total, grade_question (submission_choices_all db s) total (qid, q) db
            = (db, inr (total + grade q)))
  ∧ ((∀ total, grade_question (submission_choices_all db s) total (qid, q) db
               = (db, inr (total + 0)))
     ↔ grade q = 0)
  ∧ ∃ context,
      show_exam_result request course_id submission_id db
      = (db, inr (Render "onlinecourse/exam_result_bootstrap.html" context))
      ∧ context_grade context = grade q + others
      ∧ (context_grade context = 0 + others ↔ grade q = 0).
Proof.
  intros Hc Hs Hq Hqc Hcorrect Hselected others.
  pose proof (awarded_empty_sets db s (qid, q) Hcorrect Hselected) as Haw.
  simpl in Haw.
  assert (∀ total, grade_question (submission_choices_all db s) total (qid, q) db
                   = (db, inr (total + grade q))) as Hturn
    by (intros total; by rewrite grade_question_run, Haw).
  split; [exact Hturn|]. split.
  - split.
    + intros H. specialize (H 0). rewrite Hturn in H.
      injection H as H. lia.
    + intros H total. by rewrite Hturn, H.
  - eexists. split; [by apply show_exam_result_run|]. simpl.
    rewrite (total_score_split db s course_id qid q Hq Hqc), Haw.
    fold others. split; [done|]. lia.
Qed.

Lemma empty_selection_zero_only_if_worthless_witness :
  let s := {| submission_enrollment := 2; submission_choices := ∅ |} in
  let q := {| question_course := 2; question_content := "trick"; grade := 10 |} in
  (∀ total, grade_question (submission_choices_all Sample.exam_db s) total (4, q)
              Sample.exam_db
            = (Sample.exam_db, inr (total + 10)))
  ∧ ∃ context,
      show_exam_result (Sample.request_of (AuthenticatedUser 8)) 2 2 Sample.exam_db
      = (Sample.exam_db,
         inr (Render "onlinecourse/exam_result_bootstrap.html" context))
      ∧ context_grade context = 10
      ∧ context_grade context ≠ 0.
Proof.
  intros s q.
  edestruct (empty_selection_zero_only_if_worthless
               (Sample.request_of (AuthenticatedUser 8)) Sample.exam_db 2 2 4)
    as (Hturn & _ & context & Hrun & Hgrade & _);
    [reflexivity | reflexivity | reflexivity | reflexivity | | | ].
  - apply correct_set_empty. vm_compute. reflexivity.
  - apply selected_set_empty. vm_compute. reflexivity.
  - split; [exact Hturn|]. exists context. split; [exact Hrun|].
    rewrite Hgrade. split; vm_compute; [reflexivity|discriminate].
Defined.

(** Against C2 as stated: question 4 of the sample database is worth 10
    points and has no choice flagged correct, submission 2 selects nothing,
    and the question is awarded 10 points, not 0; the grade of course 2 is
    10. *)
Lemma empty_selection_scores_ten :
  let s := {| submission_enrollment := 2; submission_choices := ∅ |} in
  let q := {| question_course := 2; question_content := "trick"; grade := 10 |} in
  Submission_objects Sample.exam_db !! 2 = Some s
  ∧ Question_objects Sample.exam_db !! 4 = Some q
  ∧ (∀ c, ¬ flagged_correct Sample.exam_db 4 c)
  ∧ (∀ c, ¬ selected Sample.exam_db s 4 c)
  ∧ grade_question (submission_choices_all Sample.exam_db s) 0 (4, q)
      Sample.exam_db = (Sample.exam_db, inr 10)
  ∧ grade_question (submission_choices_all Sample.exam_db s) 0 (4, q)
      Sample.exam_db ≠ (Sample.exam_db, inr 0)
  ∧ context_grade <$>
      match (show_exam_result (Sample.request_of (AuthenticatedUser 8)) 2 2
               Sample.exam_db).2 with
      | inr (Render _ context) => Some context
      | _ => None
      end = Some 10.
Proof.
  intros s q. split; [reflexivity|]. split; [reflexivity|].
  split; [apply correct_set_empty; vm_compute; reflexivity|].
  split; [apply selected_set_empty; vm_compute; reflexivity|].
  split; [vm_compute; reflexivity|].
  split; [vm_compute; discriminate|].
  vm_compute. reflexivity.
Qed.

(** *** Submissions of another course *)

(** Against C6 as stated: submission 1 of the sample database belongs to an
    enrollment in course 1, and grading it for course 2 returns a grade. *)
Lemma show_exam_result_foreign_submission :
  let s := {| submission_enrollment := 1; submission_choices := {[ 1; 2 ]} |} in
  Submission_objects Sample.exam_db !! 1 = Some s
  ∧ in_enrollment_chain Sample.exam_db s 1
  ∧ ¬ in_enrollment_chain Sample.exam_db s 2
  ∧ ∃ context,
      show_exam_result (Sample.request_of (AuthenticatedUser 7)) 2 1 Sample.exam_db
      = (Sample.exam_db,
         inr (Render "onlinecourse/exam_result_bootstrap.html" context))
      ∧ context_grade context = 10.
Proof.
  intros s. split; [reflexivity|]. split; [reflexivity|].
  split; [vm_compute; discriminate|].
  eexists. split; [by apply show_exam_result_run|]. vm_compute. reflexivity.
Qed.

(** C6, as the code has it.  For a submission that exists and does not belong
    to an enrollment in the given course, [show_exam_result] still returns a
    grade whenever the course exists: the points the submission's choices
    earn on the questions of the given course.  It ends with [Http404] only
    when the course does not exist.  Nothing is written. *)
Theorem show_exam_result_ignores_enrollment_chain (request : HttpRequest)
    (db : DB) (course_id submission_id : pk) (s : Submission) :
  Submission_objects db !! submission_id = Some s →
  ¬ in_enrollment_chain db s course_id →
  match Course_objects db !! course_id with
  | Some course =>
      show_exam_result request course_id submission_id db
      = (db, inr (Render "onlinecourse/exam_result_bootstrap.html"
                    {| context_course := (course_id, course);
                       context_grade :=
                         sum_over (awarded db s)
                                  (map_to_list (question_set db course_id));
                       context_choices := submission_choices_all db s |}))
  | None =>
      show_exam_result request course_id submission_id db = (db, inl Http404)
  end.
Proof.
  intros Hs _. destruct (Course_objects db !! course_id) as [course|] eqn:Hc.
  - by apply show_exam_result_run.
  - unfold show_exam_result.
    by rewrite run_bind, get_object_or_404_Course_run, Hc.
Qed.

Lemma show_exam_result_ignores_enrollment_chain_witness :
  ∃ context,
    show_exam_result (Sample.request_of (AuthenticatedUser 7)) 2 1 Sample.exam_db
    = (Sample.exam_db,
       inr (Render "onlinecourse/exam_result_bootstrap.html" context)).
Proof.
  eexists.
  apply (show_exam_result_ignores_enrollment_chain
           (Sample.request_of (AuthenticatedUser 7)) Sample.exam_db 2 1
           {| submission_enrollment := 1; submission_choices := {[ 1; 2 ]} |}).
  - reflexivity.
  - vm_compute. discriminate.
Defined.

(** *** Grading after a correction of the answer key *)

Section regrading.
Variable db : DB.
Variable s : Submission.
Variable flipped : pk.

Let db' := flip_is_correct flipped db.

Lemma belongs_to_flip (q c : pk) : belongs_to db' q c ↔ belongs_to db q c.
Proof.
  unfold belongs_to, db', flip_is_correct. simpl. rewrite lookup_alter.
  case_decide as Hc; [subst c|done].
  by destruct (Choice_objects db !! flipped).
Qed.

Lemma flagged_correct_flip_ne (q c : pk) :
  c ≠ flipped → flagged_correct db' q c ↔ flagged_correct db q c.
Proof.
  intros Hne. unfold flagged_correct. rewrite belongs_to_flip.
  unfold db', flip_is_correct. simpl. by rewrite lookup_alter_ne.
Qed.

Lemma flagged_correct_flip_eq (q : pk) :
  belongs_to db q flipped →
  flagged_correct db' q flipped ↔ ¬ flagged_correct db q flipped.
Proof.
  intros Hb. unfold flagged_correct. rewrite belongs_to_flip.
  unfold db', flip_is_correct. simpl. rewrite lookup_alter_eq.
  pose proof Hb as Hrow. unfold belongs_to in Hrow.
  destruct (Choice_objects db !! flipped) as [[? ? []]|]; simpl in *.
  - split; [by intros [_ ?]|]. intros H. by destruct H.
  - split; [by intros _ [_ ?]|]. by intros _.
  - done.
Qed.

Lemma dom_Choice_objects_flip :
  dom (Choice_objects db') = dom (Choice_objects db).
Proof. unfold db', flip_is_correct. simpl. apply dom_alter_L. Qed.

(** The selection of the submission does not depend on the flags. *)
Lemma selected_set_flip (q : pk) : selected_set db' s q = selected_set db s q.
Proof.
  unfold selected_set. rewrite dom_Choice_objects_flip. apply set_eq.
  intros c. rewrite !elem_of_filter. unfold selected.
  by rewrite belongs_to_flip.
Qed.

(** The correct choices of the questions that do not own the flipped
    choice stay the same. *)
Lemma correct_set_flip_other (q : pk) :
  ¬ belongs_to db q flipped → correct_set db' q = correct_set db q.
Proof.
  intros Hnb. unfold correct_set. rewrite dom_Choice_objects_flip.
  apply set_eq. intros c. rewrite !elem_of_filter.
  destruct (decide (c = flipped)) as [->|Hne].
  - unfold flagged_correct. rewrite belongs_to_flip.
    split; intros [[? _] _]; done.
  - by rewrite flagged_correct_flip_ne.
Qed.

(** The flipped choice enters or leaves the correct choices of its
    question. *)
Lemma correct_set_flip_own (q : pk) :
  belongs_to db q flipped → correct_set db' q ≠ correct_set db q.
Proof.
  intros Hb Heq.
  assert (flipped ∈ dom (Choice_objects db)) as Hdom.
  { apply elem_of_dom. unfold belongs_to in Hb.
    by destruct (Choice_objects db !! flipped). }
  assert (flipped ∈ correct_set db' q ↔ flipped ∈ correct_set db q) as Hiff
    by by rewrite Heq.
  unfold correct_set in Hiff. rewrite dom_Choice_objects_flip in Hiff.
  rewrite !elem_of_filter, flagged_correct_flip_eq in Hiff by done.
  tauto.
Qed.

Lemma awarded_flip_other (question : pk * Question) :
  ¬ belongs_to db question.1 flipped →
  awarded db' s question = awarded db s question.
Proof.
  intros Hnb. unfold awarded.
  by rewrite selected_set_flip, correct_set_flip_other.
Qed.

End regrading.

Lemma sum_over_ext {A : Type} (f g : A → Z) (l : list A) :
  (∀ x, x ∈ l → f x = g x) → sum_over f l = sum_over g l.
Proof.
  induction l as [|x l IH]; intros H; simpl; [done|].
  rewrite (H x), IH; [done| |]; [|by left]. intros y Hy. apply H. by right.
Qed.

(** The points of the questions other than that of the flipped choice. *)
Lemma sum_over_others_flip (db : DB) (s : Submission) (flipped course_id : pk)
    (ch : Choice) :
  Choice_objects db !! flipped = Some ch →
  sum_over (awarded (flip_is_correct flipped db) s)
           (map_to_list (delete (choice_question ch) (question_set db course_id)))
  = sum_over (awarded db s)
             (map_to_list (delete (choice_question ch) (question_set db course_id))).
Proof.
  intros Hch. apply sum_over_ext. intros [qid q] Hin.
  apply elem_of_map_to_list in Hin. apply awarded_flip_other. simpl.
  unfold belongs_to. rewrite Hch. simpl. intros [= Heq]. subst qid.
  by rewrite lookup_delete_eq in Hin.
Qed.

(** C9. [show_exam_result] leaves the database as it found it, and what it
    returns is computed from the database it is run on: when the
    [is_correct] flag of a choice is flipped between two runs on the same
    submission, the second run returns the grade under the updated key.  If
    the choice belongs to a question of the course, the grade drops by the
    points of that question when the selection matched the old key, rises by
    them when it matches the new key, and stays the same otherwise. *)
Theorem regrading_reflects_answer_key (request : HttpRequest) (db : DB)
    (course_id submission_id flipped : pk) (course : Course) (s : Submission) :
  Course_objects db !! course_id = Some course →
  Submission_objects db !! submission_id = Some s →
  let db' := flip_is_correct flipped db in
  ∃ context1 context2,
    show_exam_result request course_id submission_id db
    = (db, inr (Render "onlinecourse/exam_result_bootstrap.html" context1))
    ∧ show_exam_result request course_id submission_id
        (flip_is_correct flipped
           (show_exam_result request course_id submission_id db).1)
      = (db', inr (Render "onlinecourse/exam_result_bootstrap.html" context2))
    ∧ (∀ questions, lists_questions db' course_id questions →
         context_grade context2 = sum_over (awarded db' s) questions)
    ∧ ∀ ch q,
        Choice_objects db !! flipped = Some ch →
        Question_objects db !! choice_question ch = Some q →
        question_course q = course_id →
        let qid := choice_question ch in
        (selected_set db s qid = correct_set db qid →
           context_grade context2 = context_grade context1 - grade q)
        ∧ (selected_set db s qid = correct_set db' qid →
             context_grade context2 = context_grade context1 + grade q)
        ∧ (selected_set db s qid ≠ correct_set db qid →
           selected_set db s qid ≠ correct_set db' qid →
             context_grade context2 = context_grade context1).
Proof.
  intros Hc Hs db'.
  pose proof (show_exam_result_run request db course_id submission_id course s
                Hc Hs) as Hrun1.
  pose proof (show_exam_result_run request db' course_id submission_id course s
                Hc Hs) as Hrun2.
  do 2 eexists. split; [exact Hrun1|]. split; [by rewrite Hrun1|]. split.
  - intros questions Hq. simpl. apply sum_over_Permutation.
    eapply lists_questions_Permutation; [apply map_to_list_lists_questions|done].
  - intros ch q Hch Hq Hqc qid. simpl.
    rewrite (total_score_split db s course_id qid q Hq Hqc).
    rewrite (total_score_split db' s course_id qid q Hq Hqc).
    assert (sum_over (awarded db' s)
              (map_to_list (delete qid (question_set db' course_id)))
            = sum_over (awarded db s)
                (map_to_list (delete qid (question_set db course_id)))) as Hrest
      by exact (sum_over_others_flip db s flipped course_id ch Hch).
    rewrite Hrest. clear Hrest.
    assert (belongs_to db qid flipped) as Hb
      by (unfold belongs_to; by rewrite Hch).
    pose proof (correct_set_flip_own db flipped qid Hb) as Hown. fold db' in Hown.
    pose proof (selected_set_flip db s flipped qid) as Hsel. fold db' in Hsel.
    destruct (awarded_cases db s (qid, q)) as [Heq Hne].
    destruct (awarded_cases db' s (qid, q)) as [Heq' Hne']. simpl in *.
    rewrite Hsel in Heq', Hne'. repeat split.
    + intros H. rewrite (Heq H), Hne'; [lia|]. rewrite H. by intros E.
    + intros H. rewrite (Heq' H), Hne; [lia|]. rewrite H. by intros E.
    + intros H H'. rewrite (Hne H), (Hne' H'). lia.
Qed.

Lemma regrading_reflects_answer_key_witness :
  ∃ context1 context2,
    show_exam_result (Sample.request_of (AuthenticatedUser 7)) 1 3 Sample.exam_db
    = (Sample.exam_db,
       inr (Render "onlinecourse/exam_result_bootstrap.html" context1))
    ∧ show_exam_result (Sample.request_of (AuthenticatedUser 7)) 1 3
        (flip_is_correct 2 Sample.exam_db)
      = (flip_is_correct 2 Sample.exam_db,
         inr (Render "onlinecourse/exam_result_bootstrap.html" context2))
    ∧ context_grade context1 = 0
    ∧ context_grade context2 = 50.
Proof.
  edestruct (regrading_reflects_answer_key
               (Sample.request_of (AuthenticatedUser 7)) Sample.exam_db 1 3 2)
    as (context1 & context2 & Hrun1 & Hrun2 & Hsum & Hdelta);
    [reflexivity | reflexivity |].
  exists context1, context2. split; [exact Hrun1|].
  rewrite Hrun1 in Hrun2. split; [exact Hrun2|].
  assert (context_grade context1 = 0) as Hzero.
  { rewrite show_exam_result_run
      with (course := {| name := "Python"; description := "basics";
                         total_enrollment := 1 |})
           (s := {| submission_enrollment := 1; submission_choices := {[ 1 ]} |})
      in Hrun1 by reflexivity.
    injection Hrun1 as <-. vm_compute. reflexivity. }
  split; [exact Hzero|].
  edestruct (Hdelta (Sample.choice 1 "B" true)) as (_ & Hup & _);
    [reflexivity | reflexivity | reflexivity |].
  rewrite Hup, Hzero; [reflexivity|]. vm_compute. reflexivity.
Defined.

(** *** [Question.is_get_score] *)

Section is_get_score.
Variable db : DB.
Variable self : pk.

(** The correct choices of the question whose ids are among the given
    ones. *)
Lemma dom_selected_correct (selected_ids : list pk) :
  dom (filter (λ kc : pk * Choice,
                 choice_question kc.2 = self ∧ is_correct kc.2 = true
                 ∧ kc.1 ∈ selected_ids)
              (Choice_objects db))
  = filter (λ c, c ∈ selected_ids) (correct_set db self).
Proof.
  apply set_eq. intros c.
  rewrite elem_of_filter, elem_of_correct_set, elem_of_dom. split.
  - intros [ch Hch]. apply map_lookup_filter_Some in Hch as (Hch & Hq & Hc & Hin).
    split; [done|]. by exists ch.
  - intros (Hin & ch & Hch & Hq & Hc). exists ch.
    by apply map_lookup_filter_Some.
Qed.

Lemma is_get_score_sizes (selected_ids : list pk) :
  is_get_score db self selected_ids = true
  ↔ size (filter (λ c, c ∈ selected_ids) (correct_set db self))
    = size (correct_set db self).
Proof.
  unfold is_get_score. rewrite bool_decide_eq_true.
  rewrite <-!size_dom, dom_selected_correct, dom_choice_set_correct.
  split; intros H; by rewrite H.
Qed.

Lemma size_filter_all (P : pk → Prop) `{!∀ c, Decision (P c)} (X : gset pk) :
  size (filter P X) = size X ↔ ∀ c, c ∈ X → P c.
Proof.
  split.
  - intros Hsize c Hc.
    assert (filter P X = X) as Heq.
    { apply set_subseteq_size_eq; [|by rewrite Hsize].
      intros x Hx. by apply elem_of_filter in Hx as [_ ?]. }
    rewrite <-Heq in Hc. by apply elem_of_filter in Hc as [? _].
  - intros Hall. f_equal. apply set_eq. intros c. rewrite elem_of_filter.
    split; [by intros [_ ?]|]. intros Hc. split; [by apply Hall|done].
Qed.

Lemma is_get_score_all_correct (selected_ids : list pk) :
  is_get_score db self selected_ids = true
  ↔ ∀ c, flagged_correct db self c → c ∈ selected_ids.
Proof.
  rewrite is_get_score_sizes, size_filter_all. split; intros H c Hc.
  - apply H. unfold correct_set. apply elem_of_filter. split; [done|].
    destruct Hc as [Hb _]. unfold belongs_to in Hb. apply elem_of_dom.
    by destruct (Choice_objects db !! c).
  - apply H. unfold correct_set in Hc. by apply elem_of_filter in Hc as [? _].
Qed.

End is_get_score.

(** C10. [is_get_score] returns [True] exactly when as many correct choices
    of the question have their id among [selected_ids] as the question has
    correct choices, that is when every correct choice is selected; ids added
    to such a selection do not change the answer.  A selection that earns the
    points in [show_exam_result] passes [is_get_score], and the converse
    fails: in the sample database the selection A, B, D of the first question
    passes [is_get_score] and is awarded nothing. *)
Theorem is_get_score_lenient (db : DB) (self : pk) (selected_ids : list pk) :
  (is_get_score db self selected_ids = true
   ↔ size (filter (λ c, c ∈ selected_ids) (correct_set db self))
     = size (correct_set db self))
  ∧ (is_get_score db self selected_ids = true
     ↔ ∀ c, flagged_correct db self c → c ∈ selected_ids)
  ∧ (∀ extra, is_get_score db self selected_ids = true →
              is_get_score db self (selected_ids ++ extra) = true)
  ∧ (∀ s, selected_set db s self = correct_set db self →
          is_get_score db self (elements (submission_choices s)) = true)
  ∧ (∃ db0 s0 q0,
       Question_objects db0 !! 1 = Some q0
       ∧ grade q0 = 50
       ∧ is_get_score db0 1 (elements (submission_choices s0)) = true
       ∧ correct_set db0 1 ⊂ selected_set db0 s0 1
       ∧ awarded db0 s0 (1, q0) = 0).
Proof.
  split; [apply is_get_score_sizes|]. split; [apply is_get_score_all_correct|].
  split; [|split].
  - intros extra. rewrite !is_get_score_all_correct. intros H c Hc.
    apply elem_of_app. left. by apply H.
  - intros s Heq. apply is_get_score_all_correct. intros c Hc.
    assert (c ∈ correct_set db self) as Hin.
    { apply elem_of_correct_set. destruct Hc as [Hb Hc]. unfold belongs_to in Hb.
      destruct (Choice_objects db !! c) as [ch|]; [|done]. simpl in *.
      exists ch. by simplify_eq. }
    rewrite <-Heq in Hin. apply elem_of_selected_set in Hin as [Hin _].
    by apply elem_of_elements.
  - exists Sample.exam_db,
      {| submission_enrollment := 1; submission_choices := {[ 1; 2; 4 ]} |},
      {| question_course := 1; question_content := "first"; grade := 50 |}.
    split; [reflexivity|]. split; [reflexivity|].
    split; [vm_compute; reflexivity|].
    split; [|vm_compute; reflexivity].
    unfold strict. apply (bool_decide_unpack _). vm_compute. exact I.
Qed.

(** ** Enrollment *)

Lemma next_pk_fresh {A : Type} (table : gmap pk A) :
  table !! next_pk table = None.
Proof.
  destruct (table !! next_pk table) as [x|] eqn:Hx; [|done]. exfalso.
  apply elem_of_map_to_list in Hx.
  assert (∀ l : list (pk * A), ∀ k y, (k, y) ∈ l → k ≤ foldr Z.max 0 l.*1) as Hmax.
  { induction l as [|[k' y'] l IH]; intros k y Hin; [by apply elem_of_nil in Hin|].
    simpl. apply elem_of_cons in Hin as [[= -> ->]|Hin]; [lia|].
    etrans; [exact (IH k y Hin)|]. apply Z.le_max_r. }
  specialize (Hmax _ _ _ Hx). unfold next_pk in Hmax.
  set (top := foldr Z.max 0 (map_to_list table).*1) in Hmax.
  change (1 + top ≤ top) in Hmax. lia.
Qed.

Lemma Enrollment_filter_empty (db : DB) (uid course_id : pk) :
  Enrollment_filter db uid course_id = ∅ ↔ ¬ enrolled db uid course_id.
Proof.
  unfold Enrollment_filter, enrolled. split.
  - intros Hempty (id & e & He & Hu & Hc).
    assert (filter (λ ke : pk * Enrollment,
                      enrollment_user ke.2 = uid ∧ enrollment_course ke.2 = course_id)
                   (Enrollment_objects db) !! id = Some e) as Hin
      by by apply map_lookup_filter_Some.
    by rewrite Hempty in Hin.
  - intros Hnone. apply map_eq. intros id. rewrite lookup_empty.
    apply map_lookup_filter_None. right. intros e He [Hu Hc]. apply Hnone.
    by exists id, e.
Qed.

Lemma check_if_enrolled_run (u : User) (course_id : pk) (db : DB) :
  check_if_enrolled u course_id db =
  (db, inr match u with
           | AuthenticatedUser uid =>
               bool_decide (Enrollment_filter db uid course_id ≠ ∅)
           | AnonymousUser => false
           end).
Proof.
  unfold check_if_enrolled. destruct u as [uid|]; simpl; [|done].
  rewrite run_gets_bind.
  destruct (decide (Enrollment_filter db uid course_id = ∅)) as [He|Hne].
  - rewrite (bool_decide_eq_false_2 (_ ≠ _)) by (by intros H).
    rewrite He, map_size_empty. by rewrite bool_decide_eq_false_2 by lia.
  - rewrite (bool_decide_eq_true_2 (_ ≠ _)) by done.
    rewrite bool_decide_eq_true_2; [done|].
    assert (size (Enrollment_filter db uid course_id) ≠ 0%nat) as Hsize
      by by rewrite map_size_empty_iff.
    lia.
Qed.

(** What [enroll] does, by case. *)
Lemma enroll_run (request : HttpRequest) (course_id : pk) (db : DB) :
  enroll request course_id db =
  match Course_objects db !! course_id with
  | None => (db, inl Http404)
  | Some course =>
      match user request with
      | AuthenticatedUser uid =>
          if decide (Enrollment_filter db uid course_id = ∅)
          then (with_enrollment db uid course_id course (now request),
                inr (HttpResponseRedirect "onlinecourse:course_details" [course_id]))
          else (db, inr (HttpResponseRedirect "onlinecourse:course_details"
                           [course_id]))
      | AnonymousUser =>
          (db, inr (HttpResponseRedirect "onlinecourse:course_details" [course_id]))
      end
  end.
Proof.
  unfold enroll. rewrite run_bind, get_object_or_404_Course_run.
  destruct (Course_objects db !! course_id) as [course|]; [|done].
  rewrite run_bind, check_if_enrolled_run.
  destruct (user request) as [uid|]; simpl; [|done].
  destruct (decide (Enrollment_filter db uid course_id = ∅)) as [He|Hne].
  - rewrite (bool_decide_eq_false_2 (_ ≠ _)) by (by intros H). reflexivity.
  - rewrite (bool_decide_eq_true_2 (_ ≠ _)) by done. reflexivity.
Qed.

(** C8. On an existing course an anonymous [enroll] request ends with the
    redirect to the course page, not with an exception, and leaves the
    database as it was: no enrollment row is created and the counter of the
    course keeps its value. *)
Theorem enroll_anonymous_noop (request : HttpRequest) (db : DB)
    (course_id : pk) (course : Course) :
  user request = AnonymousUser →
  Course_objects db !! course_id = Some course →
  enroll request course_id db
  = (db, inr (HttpResponseRedirect "onlinecourse:course_details" [course_id]))
  ∧ Enrollment_objects (enroll request course_id db).1 = Enrollment_objects db
  ∧ total_enrollment <$> Course_objects (enroll request course_id db).1 !! course_id
    = Some (total_enrollment course).
Proof.
  intros Hu Hc. rewrite enroll_run, Hc, Hu. simpl. by rewrite Hc.
Qed.

Lemma enroll_anonymous_noop_witness :
  enroll (Sample.request_of AnonymousUser) 1 Sample.exam_db
  = (Sample.exam_db,
     inr (HttpResponseRedirect "onlinecourse:course_details" [1])).
Proof.
  apply (enroll_anonymous_noop (Sample.request_of AnonymousUser) Sample.exam_db 1
           {| name := "Python"; description := "basics"; total_enrollment := 1 |});
    reflexivity.
Defined.

Section new_enrollment.
Variable db : DB.
Variables uid course_id : pk.
Variable course : Course.
Variable today : Z.

Let db' := with_enrollment db uid course_id course today.

Lemma Enrollment_filter_with_enrollment :
  Enrollment_filter db' uid course_id
  = <[next_pk (Enrollment_objects db) :=
        {| enrollment_user := uid; enrollment_course := course_id;
           date_enrolled := today; mode := HONOR |}]>
      (Enrollment_filter db uid course_id).
Proof.
  unfold Enrollment_filter, db', with_enrollment. simpl.
  by rewrite map_filter_insert_True.
Qed.

Lemma enrollment_rows_with_enrollment (c : pk) :
  enrollment_rows db' c
  = if decide (c = course_id) then S (enrollment_rows db c)
    else enrollment_rows db c.
Proof.
  unfold enrollment_rows, db', with_enrollment. simpl. case_decide as Hc.
  - subst c. rewrite map_filter_insert_True by done.
    apply map_size_insert_None, map_lookup_filter_None. left.
    apply next_pk_fresh.
  - rewrite map_filter_insert_False by (simpl; congruence).
    by rewrite delete_id by apply next_pk_fresh.
Qed.

Lemma learners_with_enrollment (c : pk) :
  learners db' c
  = if decide (c = course_id) then {[ uid ]} ∪ learners db c
    else learners db c.
Proof.
  unfold learners, db', with_enrollment. simpl. case_decide as Hc.
  - subst c. rewrite map_filter_insert_True by done. rewrite fmap_insert.
    apply map_img_insert_notin_L. rewrite lookup_fmap.
    rewrite (proj2 (map_lookup_filter_None _ _ _)); [done|]. left.
    apply next_pk_fresh.
  - rewrite map_filter_insert_False by (simpl; congruence).
    by rewrite delete_id by apply next_pk_fresh.
Qed.

Lemma elem_of_learners (c u : pk) : u ∈ learners db c ↔ enrolled db u c.
Proof.
  unfold learners, enrolled. rewrite elem_of_map_img. split.
  - intros [id Hid]. apply lookup_fmap_Some in Hid as (e & Hu & He).
    apply map_lookup_filter_Some in He as [He Hc]. by exists id, e.
  - intros (id & e & He & Hu & Hc). exists id. apply lookup_fmap_Some.
    exists e. split; [done|]. by apply map_lookup_filter_Some.
Qed.

Lemma size_learners_with_enrollment (c : pk) :
  ¬ enrolled db uid course_id →
  size (learners db' c)
  = if decide (c = course_id) then S (size (learners db c))
    else size (learners db c).
Proof.
  intros Hnew. rewrite learners_with_enrollment. case_decide as Hc; [|done].
  subst c. rewrite size_union, size_singleton; [done|].
  apply disjoint_singleton_l. by rewrite elem_of_learners.
Qed.

Lemma Course_objects_with_enrollment (c : pk) :
  Course_objects db' !! c
  = if decide (c = course_id)
    then Some {| name := name course; description := description course;
                 total_enrollment := total_enrollment course + 1 |}
    else Course_objects db !! c.
Proof.
  unfold db', with_enrollment. simpl. case_decide as Hc.
  - subst c. apply lookup_insert_eq.
  - by apply lookup_insert_ne.
Qed.

End new_enrollment.

(** A learner who has an enrollment for the course is not enrolled again. *)
Lemma enroll_already_enrolled_noop (request : HttpRequest) (db : DB)
    (course_id uid : pk) :
  user request = AuthenticatedUser uid →
  enrolled db uid course_id →
  (enroll request course_id db).1 = db.
Proof.
  intros Hu He. rewrite enroll_run, Hu.
  destruct (Course_objects db !! course_id); [|done].
  rewrite decide_False; [done|]. rewrite Enrollment_filter_empty. tauto.
Qed.

(** Against C4 as stated: learner 7 already has an enrollment for course 1
    of the sample database; two [enroll] requests of this learner leave the
    counter of the course at 1, an increase of 0.  With two rows for the pair
    in the table, two rows remain. *)
Lemma enroll_twice_when_enrolled :
  let request := Sample.request_of (AuthenticatedUser 7) in
  let calls := [(request, 1); (request, 1)] in
  is_authenticated (user request) = true
  ∧ total_enrollment <$> Course_objects Sample.exam_db !! 1 = Some 1
  ∧ total_enrollment <$> Course_objects (enroll_all calls Sample.exam_db) !! 1
    = Some 1
  ∧ size (Enrollment_filter (enroll_all calls Sample.twice_enrolled_db) 7 1)
    = 2%nat.
Proof.
  intros request calls. split; [reflexivity|]. split; [reflexivity|].
  split; vm_compute; reflexivity.
Qed.

(** C4, as the code has it.  For an authenticated learner who has no
    enrollment yet for an existing course whose counter is below the largest
    value its column holds, two [enroll] requests in a row both end with the
    redirect, leave exactly one enrollment row for the learner and the
    course, and raise the counter of the course by exactly 1 in total; the
    second request changes nothing. *)
Theorem enroll_twice_enrolls_once (request1 request2 : HttpRequest) (db : DB)
    (course_id uid : pk) (course : Course) :
  user request1 = AuthenticatedUser uid →
  user request2 = AuthenticatedUser uid →
  Course_objects db !! course_id = Some course →
  total_enrollment course < IntegerField_max →
  ¬ enrolled db uid course_id →
  let first := enroll request1 course_id db in
  let second := enroll request2 course_id first.1 in
  first.2 = inr (HttpResponseRedirect "onlinecourse:course_details" [course_id])
  ∧ second.2 = inr (HttpResponseRedirect "onlinecourse:course_details" [course_id])
  ∧ size (Enrollment_filter second.1 uid course_id) = 1%nat
  ∧ total_enrollment <$> Course_objects second.1 !! course_id
    = Some (total_enrollment course + 1)
  ∧ total_enrollment course + 1 ≤ IntegerField_max
  ∧ second.1 = first.1
  ∧ second.1 = enroll_all [(request1, course_id); (request2, course_id)] db.
Proof.
  intros Hu1 Hu2 Hc Hbound Hnew.
  assert (Enrollment_filter db uid course_id = ∅) as Hempty
    by by apply Enrollment_filter_empty.
  set (db1 := with_enrollment db uid course_id course (now request1)).
  assert (enroll request1 course_id db
          = (db1, inr (HttpResponseRedirect "onlinecourse:course_details"
                         [course_id]))) as Hfirst.
  { rewrite enroll_run, Hc, Hu1. by rewrite decide_True. }
  assert (Enrollment_filter db1 uid course_id
          = {[ next_pk (Enrollment_objects db) :=
                 {| enrollment_user := uid; enrollment_course := course_id;
                    date_enrolled := now request1; mode := HONOR |} ]}) as Hrows.
  { unfold db1. rewrite Enrollment_filter_with_enrollment, Hempty.
    apply insert_empty. }
  assert (Course_objects db1 !! course_id
          = Some {| name := name course; description := description course;
                    total_enrollment := total_enrollment course + 1 |}) as Hc1.
  { unfold db1. rewrite Course_objects_with_enrollment. by rewrite decide_True. }
  assert (enroll request2 course_id db1
          = (db1, inr (HttpResponseRedirect "onlinecourse:course_details"
                         [course_id]))) as Hsecond.
  { rewrite enroll_run, Hu2, Hc1. rewrite decide_False; [done|].
    rewrite Hrows. apply insert_non_empty. }
  intros first second. subst first second.
  unfold enroll_all. cbn [fold_left fst snd].
  rewrite !Hfirst. cbn [fst snd]. rewrite !Hsecond. cbn [fst snd].
  split; [done|]. split; [done|].
  split; [by rewrite Hrows, map_size_singleton|].
  split; [by rewrite Hc1|]. split; [lia|]. done.
Qed.

Lemma enroll_twice_enrolls_once_witness :
  let request := Sample.request_of (AuthenticatedUser 8) in
  let after := enroll_all [(request, 1); (request, 1)] Sample.exam_db in
  size (Enrollment_filter after 8 1) = 1%nat
  ∧ total_enrollment <$> Course_objects after !! 1 = Some 2.
Proof.
  intros request after.
  edestruct (enroll_twice_enrolls_once request request Sample.exam_db 1 8)
    as (_ & _ & Hrows & Hcounter & _);
    [reflexivity | reflexivity | reflexivity | reflexivity | | ].
  - apply Enrollment_filter_empty. vm_compute. reflexivity.
  - split; [exact Hrows | exact Hcounter].
Defined.

(** *** The counter and the table of enrollments *)

Lemma enroll_preserves_rows (request : HttpRequest) (course_id : pk) (db : DB) :
  counter_counts_rows db → counter_counts_rows (enroll request course_id db).1.
Proof.
  intros Hinv. rewrite enroll_run.
  destruct (Course_objects db !! course_id) as [course|] eqn:Hc; [|done].
  destruct (user request) as [uid|]; [|done].
  case_decide as Hempty; [|done]. cbn [fst snd]. intros c crs.
  rewrite Course_objects_with_enrollment, enrollment_rows_with_enrollment.
  case_decide as Heq.
  - subst c. intros [= <-]. simpl. rewrite (Hinv _ _ Hc). lia.
  - apply Hinv.
Qed.

Lemma enroll_preserves_learners (request : HttpRequest) (course_id : pk)
    (db : DB) :
  counter_counts_learners db →
  counter_counts_learners (enroll request course_id db).1.
Proof.
  intros Hinv. rewrite enroll_run.
  destruct (Course_objects db !! course_id) as [course|] eqn:Hc; [|done].
  destruct (user request) as [uid|]; [|done].
  case_decide as Hempty; [|done]. cbn [fst snd]. intros c crs.
  apply Enrollment_filter_empty in Hempty.
  rewrite Course_objects_with_enrollment, size_learners_with_enrollment by done.
  case_decide as Heq.
  - subst c. intros [= <-]. simpl. rewrite (Hinv _ _ Hc). lia.
  - apply Hinv.
Qed.

Lemma enroll_all_cons (call : HttpRequest * pk) (calls : list (HttpRequest * pk))
    (db : DB) :
  enroll_all (call :: calls) db = enroll_all calls (enroll call.1 call.2 db).1.
Proof. reflexivity. Qed.

(** C5. Served one after the other, [enroll] requests of any number, by any
    users and for any course ids, keep the counters in step with the table of
    enrollments: if every course's [total_enrollment] is the number of its
    enrollment rows before, it is so after, and if every course's
    [total_enrollment] is the number of distinct learners with an enrollment
    for it before, it is so after. *)
Theorem enroll_all_preserves_counter (calls : list (HttpRequest * pk)) (db : DB) :
  counter_counts_rows db →
  counter_counts_rows (enroll_all calls db)
  ∧ (counter_counts_learners db → counter_counts_learners (enroll_all calls db)).
Proof.
  revert db. induction calls as [|call calls IH]; intros db Hrows; [done|].
  rewrite enroll_all_cons.
  destruct (IH (enroll call.1 call.2 db).1) as [IHrows IHlearners].
  { by apply enroll_preserves_rows. }
  split; [done|]. intros Hlearners. by apply IHlearners, enroll_preserves_learners.
Qed.

Lemma exam_db_course_ids (course_id : pk) :
  is_Some (Course_objects Sample.exam_db !! course_id) →
  course_id = 1 ∨ course_id = 2.
Proof.
  intros Hc. destruct (decide (course_id = 1)) as [|H1]; [by left|].
  destruct (decide (course_id = 2)) as [|H2]; [by right|]. exfalso.
  unfold Sample.exam_db in Hc. simpl in Hc.
  rewrite lookup_insert_ne, lookup_singleton_ne in Hc by done.
  by destruct Hc.
Qed.

Lemma exam_db_counts_rows : counter_counts_rows Sample.exam_db.
Proof.
  intros course_id course Hc.
  destruct (exam_db_course_ids course_id) as [-> | ->]; [by eexists|..];
    vm_compute in Hc; injection Hc as <-; vm_compute; reflexivity.
Qed.

Lemma exam_db_counts_learners : counter_counts_learners Sample.exam_db.
Proof.
  intros course_id course Hc.
  destruct (exam_db_course_ids course_id) as [-> | ->]; [by eexists|..];
    vm_compute in Hc; injection Hc as <-; vm_compute; reflexivity.
Qed.

Lemma enroll_all_preserves_counter_witness :
  let calls := [ (Sample.request_of (AuthenticatedUser 8), 1);
                 (Sample.request_of (AuthenticatedUser 7), 1);
                 (Sample.request_of AnonymousUser, 2);
                 (Sample.request_of (AuthenticatedUser 8), 99);
                 (Sample.request_of (AuthenticatedUser 8), 1) ] in
  let after := enroll_all calls Sample.exam_db in
  counter_counts_rows after
  ∧ counter_counts_learners after
  ∧ total_enrollment <$> Course_objects after !! 1 = Some 2
  ∧ size (learners after 1) = 2%nat.
Proof.
  intros calls after.
  destruct (enroll_all_preserves_counter calls Sample.exam_db
              exam_db_counts_rows) as [Hrows Hlearners].
  split; [exact Hrows|]. split; [exact (Hlearners exam_db_counts_learners)|].
  split; vm_compute; reflexivity.
Defined.

(** ** Submitting an exam *)

Lemma QuerySet_get_empty {A : Type} (db : DB) :
  QuerySet_get (∅ : gmap pk A) db = (db, inl DoesNotExist).
Proof. unfold QuerySet_get. by rewrite map_to_list_empty. Qed.

(** The handler at work: learner 7, enrolled in course 1, submits choice 1;
    the submission gets the next key, 5, and is graded on the page the
    redirect leads to. *)
Example submit_enrolled :
  let request := Sample.request_of (AuthenticatedUser 7) in
  (submit request 1 Sample.exam_db).2
  = inr (HttpResponseRedirect "onlinecourse:exam_result" [1; 5])
  ∧ Submission_objects (submit request 1 Sample.exam_db).1 !! 5
    = Some {| submission_enrollment := 1; submission_choices := {[ 1 ]} |}.
Proof. split; vm_compute; reflexivity. Qed.

(** C7. For a learner who has no enrollment for the course, [submit] ends
    with [Enrollment.DoesNotExist] (with [Http404] if there is no such
    course) before any row is created: the database is left as it was, the
    table of submissions included. *)
Theorem submit_not_enrolled (request : HttpRequest) (db : DB)
    (course_id uid : pk) :
  user request = AuthenticatedUser uid →
  ¬ enrolled db uid course_id →
  submit request course_id db
  = (db, inl match Course_objects db !! course_id with
             | Some _ => DoesNotExist
             | None => Http404
             end)
  ∧ Submission_objects (submit request course_id db).1 = Submission_objects db.
Proof.
  intros Hu Hnew.
  assert (submit request course_id db
          = (db, inl match Course_objects db !! course_id with
                     | Some _ => DoesNotExist
                     | None => Http404
                     end)) as Hrun.
  { unfold submit. rewrite run_bind, get_object_or_404_Course_run.
    destruct (Course_objects db !! course_id) as [course|]; [|done].
    rewrite run_bind. unfold Enrollment_get. rewrite Hu. simpl.
    rewrite run_gets_bind.
    rewrite (proj2 (Enrollment_filter_empty db uid course_id) Hnew).
    by rewrite QuerySet_get_empty. }
  split; [exact Hrun|]. by rewrite Hrun.
Qed.

Lemma submit_not_enrolled_witness :
  submit (Sample.request_of (AuthenticatedUser 8)) 1 Sample.exam_db
  = (Sample.exam_db, inl DoesNotExist).
Proof.
  edestruct (submit_not_enrolled (Sample.request_of (AuthenticatedUser 8))
               Sample.exam_db 1 8) as [Hrun _]; [reflexivity | | exact Hrun].
  apply Enrollment_filter_empty. vm_compute. reflexivity.
Defined.

(** ** Further properties of the handlers *)

(** *** Reading the answers off the form *)

Section extract_answers.
Variable post : list (string * option Z).

Lemma answers_functional (key : string) (id1 id2 : Z) :
  answers post key id1 → answers post key id2 → id1 = id2.
Proof. unfold answers. intros H1 H2. by simplify_eq. Qed.

Lemma extract_answers_loop_run (keys : list string) (acc : list Z) :
  match extract_answers_loop post keys acc with
  | inr ids =>
      ∃ new, ids = acc ++ new ∧ Forall2 (answers post) (filter is_choice_key keys) new
  | inl e =>
      e = ValueError
      ∧ ∃ key, key ∈ keys ∧ is_choice_key key ∧ ∀ id, ¬ answers post key id
  end.
Proof.
  revert acc. induction keys as [|key keys IH]; intros acc; simpl.
  - exists []. by rewrite app_nil_r.
  - destruct (String.prefix "choice" key) eqn:Hprefix.
    + rewrite filter_cons_True by done.
      destruct (POST_getitem post key) as [[id|]|] eqn:Hget.
      * specialize (IH (acc ++ [id])).
        destruct (extract_answers_loop post keys (acc ++ [id])) as [e|ids].
        -- destruct IH as (-> & k & Hk & Hc & Hno). split; [done|].
           exists k. split; [by right|done].
        -- destruct IH as (new & -> & Hall). exists (id :: new).
           split; [by rewrite <-app_assoc|]. by constructor.
      * split; [done|]. exists key. split; [by left|]. split; [done|].
        intros id. unfold answers. by rewrite Hget.
      * split; [done|]. exists key. split; [by left|]. split; [done|].
        intros id. unfold answers. by rewrite Hget.
    + rewrite filter_cons_False by (unfold is_choice_key; congruence).
      specialize (IH acc).
      destruct (extract_answers_loop post keys acc) as [e|ids]; [|done].
      destruct IH as (-> & k & Hk & Hc & Hno). split; [done|].
      exists k. split; [by right|done].
Qed.

Lemma Forall2_answers_functional (keys : list string) (ids1 ids2 : list Z) :
  Forall2 (answers post) keys ids1 → Forall2 (answers post) keys ids2 → ids1 = ids2.
Proof.
  intros H1. revert ids2. induction H1 as [|key id keys ids Hid _ IH];
    intros ids2 H2; inv H2; [done|].
  f_equal; [by eapply answers_functional|by apply IH].
Qed.

(** Every key of the form has a value. *)
Lemma POST_getitem_is_Some (key : string) :
  key ∈ POST_keys post → is_Some (POST_getitem post key).
Proof.
  unfold POST_keys, POST_getitem. rewrite elem_of_remove_dups, list_elem_of_fmap.
  intros ([k v] & -> & Hin). simpl.
  assert ((k, v) ∈ filter (λ kv : string * option Z, kv.1 = k) post) as Hf
    by by apply list_elem_of_filter.
  destruct (last (filter (λ kv : string * option Z, kv.1 = k) post)) eqn:Hlast;
    [by eexists|].
  apply last_None in Hlast. rewrite Hlast in Hf. by apply elem_of_nil in Hf.
Qed.

End extract_answers.

Lemma extract_answers_ValueError (request : HttpRequest) (key : string) :
  key ∈ POST_keys (POST request) →
  is_choice_key key →
  POST_getitem (POST request) key = Some None →
  extract_answers request = inl ValueError.
Proof.
  intros Hkey Hchoice Hnone. unfold extract_answers.
  pose proof (extract_answers_loop_run (POST request)
                (POST_keys (POST request)) []) as Hrun.
  destruct (extract_answers_loop (POST request) (POST_keys (POST request)) [])
    as [e|ids0]; [by destruct Hrun as [-> _]|].
  exfalso. destruct Hrun as (new & _ & Hall).
  assert (key ∈ filter is_choice_key (POST_keys (POST request))) as Hin
    by by apply list_elem_of_filter.
  destruct (proj1 (list_elem_of_lookup _ _) Hin) as [i Hi].
  destruct (Forall2_lookup_l _ _ _ _ _ Hall Hi) as (id & _ & Hid).
  unfold answers in Hid. by rewrite Hnone in Hid.
Qed.

(** The list returned holds, key by key, the integers sent under the keys
    that start with "choice". *)
Lemma extract_answers_inr_iff (request : HttpRequest) (ids : list Z) :
  extract_answers request = inr ids
  ↔ Forall2 (answers (POST request)) (choice_keys (POST request)) ids.
Proof.
  unfold extract_answers, choice_keys.
  pose proof (extract_answers_loop_run (POST request)
                (POST_keys (POST request)) []) as Hrun.
  destruct (extract_answers_loop (POST request) (POST_keys (POST request)) [])
    as [e|ids0].
  - split; [done|]. intros Hall. exfalso.
    destruct Hrun as (_ & key & Hkey & Hchoice & Hno).
    assert (key ∈ filter is_choice_key (POST_keys (POST request))) as Hin
      by by apply list_elem_of_filter.
    destruct (proj1 (list_elem_of_lookup _ _) Hin) as [i Hi].
    destruct (Forall2_lookup_l _ _ _ _ _ Hall Hi) as (id & _ & Hid).
    by apply (Hno id).
  - destruct Hrun as (new & -> & Hall). simpl. split.
    + by intros [= <-].
    + intros Hall'. f_equal. by eapply Forall2_answers_functional.
Qed.

(** X1. [extract_answers] returns a list exactly when every key of the form
    that starts with "choice" carries an integer.  The list then has one
    entry per such key, and its entries are exactly the integers sent (last)
    under these keys: the other keys of the form contribute nothing, and a
    form without such a key gives the empty list. *)
Theorem extract_answers_returns (request : HttpRequest) :
  ((∃ ids, extract_answers request = inr ids)
   ↔ ∀ key, key ∈ POST_keys (POST request) → is_choice_key key →
            ∃ id, answers (POST request) key id)
  ∧ ∀ ids, extract_answers request = inr ids →
      length ids = length (choice_keys (POST request))
      ∧ (∀ id, id ∈ ids
               ↔ ∃ key, key ∈ POST_keys (POST request) ∧ is_choice_key key
                        ∧ answers (POST request) key id)
      ∧ (choice_keys (POST request) = [] → ids = []).
Proof.
  split.
  - split.
    + intros [ids Hids%extract_answers_inr_iff] key Hkey Hchoice.
      assert (key ∈ choice_keys (POST request)) as Hin
        by by apply list_elem_of_filter.
      destruct (proj1 (list_elem_of_lookup _ _) Hin) as [i Hi].
      destruct (Forall2_lookup_l _ _ _ _ _ Hids Hi) as (id & _ & Hid).
      by exists id.
    + intros Hall.
      destruct (extract_answers request) as [e|ids] eqn:Hrun; [|by exists ids].
      exfalso. unfold extract_answers in Hrun.
      pose proof (extract_answers_loop_run (POST request)
                    (POST_keys (POST request)) []) as Hloop.
      rewrite Hrun in Hloop. destruct Hloop as (_ & key & Hkey & Hchoice & Hno).
      destruct (Hall key Hkey Hchoice) as [id Hid]. by apply (Hno id).
  - intros ids Hids%extract_answers_inr_iff. split; [|split].
    + symmetry. by eapply Forall2_length.
    + intros id. split.
      * intros Hin. destruct (proj1 (list_elem_of_lookup _ _) Hin) as [i Hi].
        destruct (Forall2_lookup_r _ _ _ _ _ Hids Hi) as (key & Hkey & Hid).
        exists key. apply list_elem_of_lookup_2 in Hkey.
        apply list_elem_of_filter in Hkey as [Hchoice Hkey]. done.
      * intros (key & Hkey & Hchoice & Hid).
        assert (key ∈ choice_keys (POST request)) as Hin
          by by apply list_elem_of_filter.
        destruct (proj1 (list_elem_of_lookup _ _) Hin) as [i Hi].
        destruct (Forall2_lookup_l _ _ _ _ _ Hids Hi) as (id' & Hi' & Hid').
        assert (id' = id) as -> by by eapply answers_functional.
        by eapply list_elem_of_lookup_2.
    + intros Hnone. rewrite Hnone in Hids. by inv Hids.
Qed.

(** X2. [extract_answers] fails exactly when the form has a key starting with
    "choice" whose (last) value is not an integer, and then with
    [ValueError]; no other exception leaves it. *)
Theorem extract_answers_fails (request : HttpRequest) :
  (extract_answers request = inl ValueError
   ↔ ∃ key, key ∈ POST_keys (POST request) ∧ is_choice_key key
            ∧ POST_getitem (POST request) key = Some None)
  ∧ ∀ e, extract_answers request = inl e → e = ValueError.
Proof.
  unfold extract_answers.
  pose proof (extract_answers_loop_run (POST request)
                (POST_keys (POST request)) []) as Hrun.
  destruct (extract_answers_loop (POST request) (POST_keys (POST request)) [])
    as [e|ids0].
  - destruct Hrun as (-> & key & Hkey & Hchoice & Hno).
    split; [|by intros e [= <-]]. split; [|done]. intros _. exists key.
    split; [done|]. split; [done|].
    destruct (POST_getitem_is_Some _ _ Hkey) as [[id|] Hv]; [|done].
    by destruct (Hno id).
  - split; [|done]. split; [done|]. intros (key & Hkey & Hchoice & Hnone).
    exfalso. destruct Hrun as (new & _ & Hall).
    assert (key ∈ filter is_choice_key (POST_keys (POST request))) as Hin
      by by apply list_elem_of_filter.
    destruct (proj1 (list_elem_of_lookup _ _) Hin) as [i Hi].
    destruct (Forall2_lookup_l _ _ _ _ _ Hall Hi) as (id & _ & Hid).
    unfold answers in Hid. by rewrite Hnone in Hid.
Qed.

(** *** Recording a submission *)

Lemma Submission_put_put (id : pk) (s1 s2 : Submission) (db : DB) :
  Submission_put id s2 (Submission_put id s1 db) = Submission_put id s2 db.
Proof. unfold Submission_put. simpl. by rewrite insert_insert_eq. Qed.

(** What [submit] does, by case. *)
Lemma submit_run (request : HttpRequest) (course_id : pk) (db : DB) :
  submit request course_id db =
  match Course_objects db !! course_id with
  | None => (db, inl Http404)
  | Some _ =>
      match user request with
      | AnonymousUser => (db, inl TypeError)
      | AuthenticatedUser uid =>
          match map_to_list (Enrollment_filter db uid course_id) with
          | [] => (db, inl DoesNotExist)
          | [enrollment] =>
              let id := next_pk (Submission_objects db) in
              let created :=
                Submission_put id {| submission_enrollment := enrollment.1;
                                     submission_choices := ∅ |} db in
              match extract_answers request with
              | inl e => (created, inl e)
              | inr ids =>
                  if forallb (λ id : pk,
                                bool_decide (is_Some (Choice_objects db !! id)))
                             ids
                  then (Submission_put id
                          {| submission_enrollment := enrollment.1;
                             submission_choices := list_to_set ids |} db,
                        inr (HttpResponseRedirect "onlinecourse:exam_result"
                               [course_id; id]))
                  else (created, inl IntegrityError)
              end
          | _ :: _ :: _ => (db, inl MultipleObjectsReturned)
          end
      end
  end.
Proof.
  unfold submit. rewrite run_bind, get_object_or_404_Course_run.
  destruct (Course_objects db !! course_id) as [course|]; [|done].
  rewrite run_bind. unfold Enrollment_get.
  destruct (user request) as [uid|]; simpl; [|done].
  rewrite run_gets_bind. unfold QuerySet_get.
  destruct (map_to_list (Enrollment_filter db uid course_id))
    as [|enrollment [|? ?]]; [done| |done].
  destruct (extract_answers request) as [e|ids]; [reflexivity|].
  unfold Submission_create, Submission_choices_set, Submission_get, lift_result,
    gets, modify, raise.
  repeat (unfold mbind, View_bind, mret, View_ret; cbn beta iota).
  change (Choice_objects (Submission_put _ _ db)) with (Choice_objects db).
  destruct (forallb (A:=pk) _ ids); [|reflexivity].
  assert (Submission_objects
            (Submission_put (next_pk (Submission_objects db))
               {| submission_enrollment := enrollment.1;
                  submission_choices := ∅ |} db)
          !! next_pk (Submission_objects db)
          = Some {| submission_enrollment := enrollment.1;
                    submission_choices := ∅ |}) as Hnew
    by apply lookup_insert_eq.
  rewrite Hnew. cbn [submission_enrollment]. by rewrite Submission_put_put.
Qed.

Lemma submit_run_recorded (request : HttpRequest) (db : DB)
    (course_id uid eid : pk) (course : Course) (e : Enrollment) (ids : list Z) :
  user request = AuthenticatedUser uid →
  Course_objects db !! course_id = Some course →
  Enrollment_filter db uid course_id = {[ eid := e ]} →
  extract_answers request = inr ids →
  (∀ c, c ∈ ids → is_Some (Choice_objects db !! c)) →
  submit request course_id db
  = (Submission_put (next_pk (Submission_objects db))
       {| submission_enrollment := eid;
          submission_choices := list_to_set ids |} db,
     inr (HttpResponseRedirect "onlinecourse:exam_result"
            [course_id; next_pk (Submission_objects db)])).
Proof.
  intros Hu Hc He Hids Hknown.
  rewrite submit_run, Hc, Hu, He, map_to_list_singleton, Hids. cbv zeta.
  rewrite (proj2 (forallb_forall _ _)); [done|].
  intros c Hin. apply bool_decide_eq_true, Hknown. by apply list_elem_of_In.
Qed.

(** X3. When the learner has exactly one enrollment for the existing course,
    every answer of the form is an integer and names an existing choice,
    [submit] adds one submission under a key not in use, linked to that
    enrollment and to the set of the answers, changes nothing else, and
    redirects to the result page of the course and the new submission. *)
Theorem submit_records_answers (request : HttpRequest) (db : DB)
    (course_id uid eid : pk) (course : Course) (e : Enrollment) (ids : list Z) :
  user request = AuthenticatedUser uid →
  Course_objects db !! course_id = Some course →
  Enrollment_filter db uid course_id = {[ eid := e ]} →
  extract_answers request = inr ids →
  (∀ c, c ∈ ids → is_Some (Choice_objects db !! c)) →
  let id := next_pk (Submission_objects db) in
  submit request course_id db
  = (Submission_put id {| submission_enrollment := eid;
                          submission_choices := list_to_set ids |} db,
     inr (HttpResponseRedirect "onlinecourse:exam_result" [course_id; id]))
  ∧ Submission_objects db !! id = None.
Proof.
  intros Hu Hc He Hids Hknown id. split; [|apply next_pk_fresh].
  by eapply submit_run_recorded.
Qed.

Lemma submit_records_answers_witness :
  submit (Sample.request_of (AuthenticatedUser 7)) 1 Sample.exam_db
  = (Submission_put 5 {| submission_enrollment := 1;
                         submission_choices := list_to_set [1] |} Sample.exam_db,
     inr (HttpResponseRedirect "onlinecourse:exam_result" [1; 5])).
Proof.
  edestruct (submit_records_answers (Sample.request_of (AuthenticatedUser 7))
               Sample.exam_db 1 7 1) as [Hrun _];
    [reflexivity | reflexivity | | | | exact Hrun].
  - vm_compute. reflexivity.
  - vm_compute. reflexivity.
  - intros c [->|Hc%elem_of_nil]%elem_of_cons; [by eexists|done].
Defined.

(** X4. The submission is created before the form is read: when the learner
    has exactly one enrollment for the existing course and some key starting
    with "choice" carries a value that is not an integer, [submit] ends with
    [ValueError] and leaves behind a new submission without choices. *)
Theorem submit_bad_answer_leaves_empty_submission (request : HttpRequest)
    (db : DB) (course_id uid eid : pk) (course : Course) (e : Enrollment)
    (key : string) :
  user request = AuthenticatedUser uid →
  Course_objects db !! course_id = Some course →
  Enrollment_filter db uid course_id = {[ eid := e ]} →
  key ∈ POST_keys (POST request) →
  is_choice_key key →
  POST_getitem (POST request) key = Some None →
  submit request course_id db
  = (Submission_put (next_pk (Submission_objects db))
       {| submission_enrollment := eid; submission_choices := ∅ |} db,
     inl ValueError).
Proof.
  intros Hu Hc He Hkey Hchoice Hvalue.
  assert (extract_answers request = inl ValueError) as Hfail
    by by eapply extract_answers_ValueError.
  by rewrite submit_run, Hc, Hu, He, map_to_list_singleton, Hfail.
Qed.

Lemma submit_bad_answer_leaves_empty_submission_witness :
  submit {| user := AuthenticatedUser 7; now := 102;
            POST := [("csrfmiddlewaretoken"%string, None);
                     ("choice_9"%string, None)] |} 1 Sample.exam_db
  = (Submission_put 5 {| submission_enrollment := 1; submission_choices := ∅ |}
       Sample.exam_db,
     inl ValueError).
Proof.
  apply (submit_bad_answer_leaves_empty_submission _ Sample.exam_db 1 7 1
           {| name := "Python"; description := "basics"; total_enrollment := 1 |}
           {| enrollment_user := 7; enrollment_course := 1;
              date_enrolled := 100; mode := HONOR |} "choice_9");
    first [ reflexivity
          | vm_compute; reflexivity
          | apply (bool_decide_unpack _); vm_compute; exact I ].
Defined.

(** X5. Whatever the request and however it ends, [submit] leaves the tables
    of courses, enrollments, questions and choices as they were, keeps every
    existing submission as it was, and adds at most one submission, under the
    next key. *)
Theorem submit_only_appends (request : HttpRequest) (course_id : pk) (db : DB) :
  let db' := (submit request course_id db).1 in
  Course_objects db' = Course_objects db
  ∧ Enrollment_objects db' = Enrollment_objects db
  ∧ Question_objects db' = Question_objects db
  ∧ Choice_objects db' = Choice_objects db
  ∧ (∀ id s, Submission_objects db !! id = Some s →
             Submission_objects db' !! id = Some s)
  ∧ (∀ id, is_Some (Submission_objects db' !! id) →
           is_Some (Submission_objects db !! id)
           ∨ id = next_pk (Submission_objects db)).
Proof.
  intros db'.
  assert (db' = db
          ∨ ∃ s, db' = Submission_put (next_pk (Submission_objects db)) s db)
    as [-> | [s ->]].
  { unfold db'. rewrite submit_run.
    destruct (Course_objects db !! course_id); [|by left].
    destruct (user request) as [uid|]; [|by left].
    destruct (map_to_list (Enrollment_filter db uid course_id))
      as [|enrollment [|? ?]]; [by left| |by left].
    cbv zeta. destruct (extract_answers request) as [e|ids]; [right; by eexists|].
    destruct (forallb (A:=pk) _ ids); right; by eexists. }
  - repeat split; [done|]. intros id H. by left.
  - repeat split; simpl.
    + intros id s0 H0. rewrite lookup_insert_ne; [done|]. intros <-.
      by rewrite next_pk_fresh in H0.
    + intros id H.
      destruct (decide (next_pk (Submission_objects db) = id)) as [<-|Hne];
        [by right|]. left. by rewrite lookup_insert_ne in H.
Qed.

(** X6. [submit] writes only for an authenticated learner with exactly one
    enrollment row for an existing course; with several rows for the pair it
    ends with [MultipleObjectsReturned] and writes nothing. *)
Theorem submit_writes_only_for_single_enrollment (request : HttpRequest)
    (course_id : pk) (db : DB) :
  ((submit request course_id db).1 ≠ db →
     ∃ uid, user request = AuthenticatedUser uid
            ∧ is_Some (Course_objects db !! course_id)
            ∧ size (Enrollment_filter db uid course_id) = 1%nat)
  ∧ ∀ uid, user request = AuthenticatedUser uid →
           is_Some (Course_objects db !! course_id) →
           (1 < size (Enrollment_filter db uid course_id))%nat →
           submit request course_id db = (db, inl MultipleObjectsReturned).
Proof.
  rewrite submit_run. split.
  - destruct (Course_objects db !! course_id) as [course|]; [|done].
    destruct (user request) as [uid|]; [|done].
    pose proof (length_map_to_list (Enrollment_filter db uid course_id)) as Hlen.
    destruct (map_to_list (Enrollment_filter db uid course_id))
      as [|enrollment [|? ?]]; [done| |done].
    intros _. exists uid. split; [done|]. split; [by eexists|]. by rewrite <-Hlen.
  - intros uid -> [course ->] Hsize.
    pose proof (length_map_to_list (Enrollment_filter db uid course_id)) as Hlen.
    destruct (map_to_list (Enrollment_filter db uid course_id))
      as [|enrollment [|? ?]]; simpl in Hlen; [lia|lia|done].
Qed.

Lemma submit_writes_only_for_single_enrollment_witness :
  submit (Sample.request_of (AuthenticatedUser 7)) 1 Sample.twice_enrolled_db
  = (Sample.twice_enrolled_db, inl MultipleObjectsReturned).
Proof.
  apply (proj2 (submit_writes_only_for_single_enrollment
                  (Sample.request_of (AuthenticatedUser 7)) 1
                  Sample.twice_enrolled_db) 7).
  - reflexivity.
  - by eexists.
  - vm_compute. lia.
Defined.

(** X7. Submitting and then opening the result page: after a [submit] that
    records the answers, [show_exam_result] for the course and the new
    submission returns the points the submitted answers earn on the
    questions of the course, shows exactly the submitted choices, and writes
    nothing. *)
Theorem submit_then_show_exam_result (request request' : HttpRequest) (db : DB)
    (course_id uid eid : pk) (course : Course) (e : Enrollment) (ids : list Z) :
  user request = AuthenticatedUser uid →
  Course_objects db !! course_id = Some course →
  Enrollment_filter db uid course_id = {[ eid := e ]} →
  extract_answers request = inr ids →
  (∀ c, c ∈ ids → is_Some (Choice_objects db !! c)) →
  let id := next_pk (Submission_objects db) in
  let db' := (submit request course_id db).1 in
  let s := {| submission_enrollment := eid;
              submission_choices := list_to_set ids |} in
  show_exam_result request' course_id id db'
  = (db', inr (Render "onlinecourse/exam_result_bootstrap.html"
                 {| context_course := (course_id, course);
                    context_grade :=
                      sum_over (awarded db s)
                               (map_to_list (question_set db course_id));
                    context_choices := submission_choices_all db s |}))
  ∧ dom (submission_choices_all db s) = list_to_set ids.
Proof.
  intros Hu Hc He Hids Hknown id db' s. split.
  - unfold db'.
    rewrite (submit_run_recorded request db course_id uid eid course e ids)
      by done.
    cbn [fst]. fold id. fold s.
    by rewrite (show_exam_result_run request' (Submission_put id s db)
                  course_id id course s)
      by (try done; apply lookup_insert_eq).
  - apply set_eq. intros c. unfold submission_choices_all.
    rewrite elem_of_dom, elem_of_list_to_set. split.
    + intros [ch Hch]. apply map_lookup_filter_Some in Hch as [_ Hin].
      simpl in Hin. by apply elem_of_list_to_set in Hin.
    + intros Hin. destruct (Hknown c Hin) as [ch Hch]. exists ch.
      apply map_lookup_filter_Some. split; [done|]. simpl.
      by apply elem_of_list_to_set.
Qed.

Lemma submit_then_show_exam_result_witness :
  let request := {| user := AuthenticatedUser 7; now := 102;
                    POST := [("choice_1"%string, Some 1);
                             ("choice_2"%string, Some 2);
                             ("choice_5"%string, Some 5)] |} in
  ∃ context,
    show_exam_result request 1 5 (submit request 1 Sample.exam_db).1
    = ((submit request 1 Sample.exam_db).1,
       inr (Render "onlinecourse/exam_result_bootstrap.html" context))
    ∧ context_grade context = 80.
Proof.
  intros request.
  edestruct (submit_then_show_exam_result request request Sample.exam_db 1 7 1)
    as [Hrun _]; [reflexivity | reflexivity | | | | ].
  - vm_compute. reflexivity.
  - vm_compute. reflexivity.
  - intros c Hc. apply (bool_decide_unpack _).
    repeat (apply elem_of_cons in Hc as [->|Hc]; [by vm_compute|]).
    by apply elem_of_nil in Hc.
  - eexists. split; [exact Hrun|]. vm_compute. reflexivity.
Defined.

(** *** Errors and bounds of grading *)

(** X8. [show_exam_result] never writes.  It ends with [Http404] exactly when
    the course does not exist, whether or not the submission does, with
    [DoesNotExist] exactly when the course exists and the submission does
    not, and with the result page otherwise. *)
Theorem show_exam_result_outcomes (request : HttpRequest) (db : DB)
    (course_id submission_id : pk) :
  (show_exam_result request course_id submission_id db).1 = db
  ∧ match (show_exam_result request course_id submission_id db).2 with
    | inl e =>
        (e = Http404 ∧ Course_objects db !! course_id = None)
        ∨ (e = DoesNotExist ∧ is_Some (Course_objects db !! course_id)
           ∧ Submission_objects db !! submission_id = None)
    | inr response =>
        is_Some (Course_objects db !! course_id)
        ∧ is_Some (Submission_objects db !! submission_id)
        ∧ ∃ context,
            response = Render "onlinecourse/exam_result_bootstrap.html" context
    end.
Proof.
  destruct (Course_objects db !! course_id) as [course|] eqn:Hc.
  - destruct (Submission_objects db !! submission_id) as [s|] eqn:Hs.
    + rewrite (show_exam_result_run request db course_id submission_id course s)
        by done.
      simpl. split; [done|]. split; [by eexists|]. split; [by eexists|].
      by eexists.
    + unfold show_exam_result.
      rewrite run_bind, get_object_or_404_Course_run, Hc.
      rewrite run_bind, Submission_get_run, Hs. simpl.
      split; [done|]. right. split; [done|]. split; [by eexists|done].
  - unfold show_exam_result.
    rewrite run_bind, get_object_or_404_Course_run, Hc. simpl.
    split; [done|]. by left.
Qed.

Lemma sum_over_bounds {A : Type} (f g : A → Z) (l : list A) :
  (∀ x, x ∈ l → 0 ≤ f x ≤ g x) → 0 ≤ sum_over f l ≤ sum_over g l.
Proof.
  induction l as [|x l IH]; intros H; simpl; [lia|].
  assert (0 ≤ f x ≤ g x) by (apply H; by left).
  assert (0 ≤ sum_over f l ≤ sum_over g l)
    by (apply IH; intros y Hy; apply H; by right).
  lia.
Qed.

Lemma sum_over_eq_bound {A : Type} (f g : A → Z) (l : list A) :
  (∀ x, x ∈ l → 0 ≤ f x ≤ g x) →
  sum_over f l = sum_over g l → ∀ x, x ∈ l → f x = g x.
Proof.
  induction l as [|y l IH]; intros H Hsum x Hx; [by apply elem_of_nil in Hx|].
  simpl in Hsum.
  assert (0 ≤ f y ≤ g y) by (apply H; by left).
  assert (0 ≤ sum_over f l ≤ sum_over g l)
    by (apply sum_over_bounds; intros z Hz; apply H; by right).
  apply elem_of_cons in Hx as [->|Hx]; [lia|].
  apply IH; [|lia|done]. intros z Hz. apply H. by right.
Qed.

Lemma sum_over_zero {A : Type} (l : list A) : sum_over (λ _, 0) l = 0.
Proof.
  induction l as [|x l IH]; [done|].
  change (0 + sum_over (λ _ : A, 0) l = 0). lia.
Qed.

Lemma awarded_bounds (db : DB) (s : Submission) (question : pk * Question) :
  0 ≤ grade question.2 → 0 ≤ awarded db s question ≤ grade question.2.
Proof. intros H. unfold awarded. case_decide; lia. Qed.

(** X9. When no question of the course has a negative point value, the grade
    returned lies between 0 and the sum of the point values of the questions
    of the course. *)
Theorem show_exam_result_grade_bounds (request : HttpRequest) (db : DB)
    (course_id submission_id : pk) (course : Course) (s : Submission) :
  Course_objects db !! course_id = Some course →
  Submission_objects db !! submission_id = Some s →
  (∀ qid q, Question_objects db !! qid = Some q →
            question_course q = course_id → 0 ≤ grade q) →
  ∃ context,
    show_exam_result request course_id submission_id db
    = (db, inr (Render "onlinecourse/exam_result_bootstrap.html" context))
    ∧ 0 ≤ context_grade context ≤ max_score db course_id.
Proof.
  intros Hc Hs Hgrades. eexists. split; [by apply show_exam_result_run|].
  simpl. apply sum_over_bounds. intros [qid q] Hin.
  apply map_to_list_lists_questions in Hin as [Hq Hqc].
  apply awarded_bounds. simpl. by eapply Hgrades.
Qed.

Lemma show_exam_result_grade_bounds_witness :
  ∃ context,
    show_exam_result (Sample.request_of (AuthenticatedUser 7)) 1 4 Sample.exam_db
    = (Sample.exam_db,
       inr (Render "onlinecourse/exam_result_bootstrap.html" context))
    ∧ 0 ≤ context_grade context ≤ 100.
Proof.
  apply (show_exam_result_grade_bounds
           (Sample.request_of (AuthenticatedUser 7)) Sample.exam_db 1 4
           {| name := "Python"; description := "basics"; total_enrollment := 1 |}
           {| submission_enrollment := 1; submission_choices := {[ 1; 2; 4 ]} |});
    [reflexivity | reflexivity |].
  intros qid q Hq Hqc.
  assert (qid ∈ dom (Question_objects Sample.exam_db)) as Hdom
    by (apply elem_of_dom; by eexists).
  assert (∀ k, k ∈ dom (Question_objects Sample.exam_db) →
            ∃ q', Question_objects Sample.exam_db !! k = Some q' ∧ 0 ≤ grade q')
    as Hall.
  { apply (set_Forall_elements
             (λ k, ∃ q', Question_objects Sample.exam_db !! k = Some q'
                         ∧ 0 ≤ grade q')).
    vm_compute. repeat constructor; eexists; (split; [reflexivity|done]). }
  destruct (Hall qid Hdom) as (q' & Hq' & Hge). by simplify_eq.
Defined.

(** X10. When every question of the course has a positive point value, the
    grade is the sum of the point values exactly when every question of the
    course is answered with exactly its correct choices, and it is 0 exactly
    when no question is. *)
Theorem show_exam_result_full_marks (request : HttpRequest) (db : DB)
    (course_id submission_id : pk) (course : Course) (s : Submission) :
  Course_objects db !! course_id = Some course →
  Submission_objects db !! submission_id = Some s →
  (∀ qid q, Question_objects db !! qid = Some q →
            question_course q = course_id → 0 < grade q) →
  ∃ context,
    show_exam_result request course_id submission_id db
    = (db, inr (Render "onlinecourse/exam_result_bootstrap.html" context))
    ∧ (context_grade context = max_score db course_id
       ↔ ∀ qid q, Question_objects db !! qid = Some q →
                  question_course q = course_id →
                  selected_set db s qid = correct_set db qid)
    ∧ (context_grade context = 0
       ↔ ∀ qid q, Question_objects db !! qid = Some q →
                  question_course q = course_id →
                  selected_set db s qid ≠ correct_set db qid).
Proof.
  intros Hc Hs Hgrades. eexists. split; [by apply show_exam_result_run|].
  simpl. unfold max_score.
  assert (∀ x, x ∈ map_to_list (question_set db course_id) →
               0 ≤ awarded db s x ≤ grade x.2) as Hb.
  { intros [qid q] Hin. apply map_to_list_lists_questions in Hin as [Hq Hqc].
    apply awarded_bounds. simpl. apply Z.lt_le_incl. by eapply Hgrades. }
  split; split.
  - intros Hsum qid q Hq Hqc.
    pose proof (sum_over_eq_bound _ _ _ Hb Hsum (qid, q)) as Heq.
    unfold awarded in Heq. simpl in Heq.
    case_decide as Hm; [done|]. pose proof (Hgrades qid q Hq Hqc).
    assert ((qid, q) ∈ map_to_list (question_set db course_id)) as Hin
      by by apply map_to_list_lists_questions.
    specialize (Heq Hin). lia.
  - intros Hall. apply sum_over_ext. intros [qid q] Hin.
    apply map_to_list_lists_questions in Hin as [Hq Hqc].
    apply awarded_cases. simpl. by eapply Hall.
  - intros Hsum qid q Hq Hqc Hm.
    assert ((qid, q) ∈ map_to_list (question_set db course_id)) as Hin
      by by apply map_to_list_lists_questions.
    pose proof (sum_over_zero (map_to_list (question_set db course_id)))
      as Hzero.
    assert (∀ x, x ∈ map_to_list (question_set db course_id) →
                 0 ≤ 0 ≤ awarded db s x) as Hb0
      by (intros x Hx; specialize (Hb x Hx); lia).
    pose proof (sum_over_eq_bound (λ _, 0) (awarded db s) _ Hb0) as Heq.
    rewrite Hzero, Hsum in Heq. specialize (Heq eq_refl (qid, q) Hin).
    simpl in Heq. pose proof (proj1 (awarded_cases db s (qid, q)) Hm) as Hfull.
    simpl in Hfull. pose proof (Hgrades qid q Hq Hqc). lia.
  - intros Hnone.
    rewrite (sum_over_ext (awarded db s) (λ _, 0)).
    + apply sum_over_zero.
    + intros [qid q] Hin.
      apply map_to_list_lists_questions in Hin as [Hq Hqc].
      apply awarded_cases. simpl. by eapply Hnone.
Qed.

Lemma exam_db_grades_positive (qid : pk) (q : Question) :
  Question_objects Sample.exam_db !! qid = Some q → 0 < grade q.
Proof.
  revert qid q.
  change (map_Forall (λ (_ : pk) (q : Question), 0 < grade q)
                     (Question_objects Sample.exam_db)).
  apply (bool_decide_unpack _). vm_compute. exact I.
Qed.

Lemma show_exam_result_full_marks_witness :
  ∃ context,
    show_exam_result (Sample.request_of (AuthenticatedUser 7)) 1 3 Sample.exam_db
    = (Sample.exam_db,
       inr (Render "onlinecourse/exam_result_bootstrap.html" context))
    ∧ context_grade context ≠ max_score Sample.exam_db 1.
Proof.
  edestruct (show_exam_result_full_marks
               (Sample.request_of (AuthenticatedUser 7)) Sample.exam_db 1 3)
    as (context & Hrun & Hfull & _); [reflexivity | reflexivity | |].
  - intros qid q Hq _. by eapply exam_db_grades_positive.
  - exists context. split; [exact Hrun|]. rewrite Hfull. intros Hall.
    specialize (Hall 1 {| question_course := 1; question_content := "first";
                          grade := 50 |} eq_refl eq_refl).
    revert Hall. apply (bool_decide_unpack _). vm_compute. exact I.
Defined.

(** X11. The grade depends on the submission only through the choices of the
    questions of the graded course: two submissions that select the same of
    those choices get the same grade, whatever else they select. *)
Theorem show_exam_result_ignores_foreign_choices (request : HttpRequest)
    (db : DB) (course_id id1 id2 : pk) (course : Course) (s1 s2 : Submission) :
  Course_objects db !! course_id = Some course →
  Submission_objects db !! id1 = Some s1 →
  Submission_objects db !! id2 = Some s2 →
  (∀ c ch q, Choice_objects db !! c = Some ch →
             Question_objects db !! choice_question ch = Some q →
             question_course q = course_id →
             (c ∈ submission_choices s1 ↔ c ∈ submission_choices s2)) →
  ∃ context1 context2,
    show_exam_result request course_id id1 db
    = (db, inr (Render "onlinecourse/exam_result_bootstrap.html" context1))
    ∧ show_exam_result request course_id id2 db
      = (db, inr (Render "onlinecourse/exam_result_bootstrap.html" context2))
    ∧ context_grade context1 = context_grade context2.
Proof.
  intros Hc Hs1 Hs2 Hsame. do 2 eexists.
  split; [by apply show_exam_result_run|].
  split; [by apply show_exam_result_run|]. simpl.
  apply sum_over_ext. intros [qid q] Hin.
  apply map_to_list_lists_questions in Hin as [Hq Hqc].
  unfold awarded. simpl.
  assert (selected_set db s1 qid = selected_set db s2 qid) as ->; [|done].
  apply set_eq. intros c. rewrite !elem_of_selected_set.
  split; intros (Hin & ch & Hch & Hchq); (split; [|by exists ch]);
    subst qid; by eapply Hsame.
Qed.

Lemma show_exam_result_ignores_foreign_choices_witness :
  ∃ context1 context2,
    show_exam_result (Sample.request_of (AuthenticatedUser 8)) 2 1 Sample.exam_db
    = (Sample.exam_db,
       inr (Render "onlinecourse/exam_result_bootstrap.html" context1))
    ∧ show_exam_result (Sample.request_of (AuthenticatedUser 8)) 2 2
        Sample.exam_db
      = (Sample.exam_db,
         inr (Render "onlinecourse/exam_result_bootstrap.html" context2))
    ∧ context_grade context1 = context_grade context2.
Proof.
  apply (show_exam_result_ignores_foreign_choices
           (Sample.request_of (AuthenticatedUser 8)) Sample.exam_db 2 1 2
           {| name := "SQL"; description := "queries"; total_enrollment := 1 |}
           {| submission_enrollment := 1; submission_choices := {[ 1; 2 ]} |}
           {| submission_enrollment := 2; submission_choices := ∅ |});
    [reflexivity | reflexivity | reflexivity |].
  intros c ch q Hch. revert c ch Hch q.
  change (map_Forall
            (λ (c : pk) (ch : Choice),
               ∀ q, Question_objects Sample.exam_db !! choice_question ch = Some q →
                    question_course q = 2 →
                    (c ∈ ({[ 1; 2 ]} : gset pk) ↔ c ∈ (∅ : gset pk)))
            (Choice_objects Sample.exam_db)).
  apply map_Forall_to_list. vm_compute.
  repeat (apply Forall_cons; split;
          [first [ by intros q [= <-] [=]
                 | intros q _ _; apply (bool_decide_unpack _); vm_compute;
                   exact I ]|]).
  apply Forall_nil_2.
Defined.

(** X12. The exact-match test of [show_exam_result] is [is_get_score]
    together with the absence of wrong answers: the selected choices of a
    question are exactly its correct choices if and only if [is_get_score]
    accepts the ids of the submission and every selected choice of the
    question is flagged correct. *)
Theorem exact_match_is_get_score_without_wrong (db : DB) (s : Submission)
    (qid : pk) :
  selected_set db s qid = correct_set db qid
  ↔ is_get_score db qid (elements (submission_choices s)) = true
    ∧ ∀ c, selected db s qid c → flagged_correct db qid c.
Proof.
  rewrite is_get_score_all_correct. split.
  - intros Heq. split; intros c Hc.
    + assert (c ∈ selected_set db s qid) as Hin.
      { rewrite Heq. apply elem_of_correct_set. destruct Hc as [Hb Hc].
        unfold belongs_to in Hb.
        destruct (Choice_objects db !! c) as [ch|]; [|done]. simpl in *.
        exists ch. by simplify_eq. }
      apply elem_of_selected_set in Hin as [Hin _]. by apply elem_of_elements.
    + assert (c ∈ correct_set db qid) as Hin.
      { rewrite <-Heq. apply elem_of_selected_set. destruct Hc as [Hin Hb].
        split; [done|]. unfold belongs_to in Hb.
        destruct (Choice_objects db !! c) as [ch|]; [|done]. simpl in *.
        exists ch. by simplify_eq. }
      apply elem_of_correct_set in Hin as (ch & Hch & Hq & Hcorrect).
      unfold flagged_correct, belongs_to. rewrite Hch. simpl.
      by rewrite Hq, Hcorrect.
  - intros [Hall Hright]. apply set_eq. intros c.
    rewrite elem_of_selected_set, elem_of_correct_set. split.
    + intros (Hin & ch & Hch & Hq).
      assert (flagged_correct db qid c) as [_ Hcorrect].
      { apply Hright. split; [done|]. unfold belongs_to. rewrite Hch. simpl.
        by rewrite Hq. }
      rewrite Hch in Hcorrect. simpl in Hcorrect. exists ch. by simplify_eq.
    + intros (ch & Hch & Hq & Hcorrect). split; [|by exists ch].
      apply elem_of_elements, Hall. unfold flagged_correct, belongs_to.
      rewrite Hch. simpl. by rewrite Hq, Hcorrect.
Qed.

(** X13. With no id selected [is_get_score] returns [True] exactly for a
    question that has no choice flagged correct, and for such a question it
    returns [True] whatever ids are selected. *)
Theorem is_get_score_nothing_selected (db : DB) (self : pk) :
  (is_get_score db self [] = true ↔ ∀ c, ¬ flagged_correct db self c)
  ∧ ((∀ c, ¬ flagged_correct db self c) →
     ∀ selected_ids, is_get_score db self selected_ids = true).
Proof.
  split.
  - rewrite is_get_score_all_correct. split.
    + intros H c Hc. by apply (elem_of_nil c), H.
    + intros H c Hc. by destruct (H c).
  - intros H selected_ids. apply is_get_score_all_correct. intros c Hc.
    by destruct (H c).
Qed.

(** *** More on enrollment *)

(** X14. [check_if_enrolled] never writes, and it answers [True] exactly for
    an authenticated user who has an enrollment row for the course; for an
    anonymous user it answers [False] without looking at the table. *)
Theorem check_if_enrolled_iff_enrolled (u : User) (course_id : pk) (db : DB) :
  ∃ answer,
    check_if_enrolled u course_id db = (db, inr answer)
    ∧ (answer = true
       ↔ ∃ uid, u = AuthenticatedUser uid ∧ enrolled db uid course_id).
Proof.
  eexists. split; [apply check_if_enrolled_run|]. destruct u as [uid|].
  - rewrite bool_decide_eq_true, Enrollment_filter_empty. split.
    + intros H. exists uid. split; [done|].
      by destruct (decide (enrolled db uid course_id)) as [|Hn];
        [|destruct (H Hn)].
    + intros (uid' & [= <-] & He) Hn. by apply Hn.
  - split; [done|]. by intros (uid & [=] & _).
Qed.

(** The two states [enroll] can leave. *)
Lemma enroll_state (request : HttpRequest) (course_id : pk) (db : DB) :
  (enroll request course_id db).1 = db
  ∨ ∃ uid course,
      user request = AuthenticatedUser uid
      ∧ Course_objects db !! course_id = Some course
      ∧ ¬ enrolled db uid course_id
      ∧ (enroll request course_id db).1
        = with_enrollment db uid course_id course (now request).
Proof.
  rewrite enroll_run.
  destruct (Course_objects db !! course_id) as [course|] eqn:Hc; [|by left].
  destruct (user request) as [uid|] eqn:Hu; [|by left].
  case_decide as Hempty; [|by left]. right. exists uid, course.
  by rewrite <-Enrollment_filter_empty.
Qed.

(** X15. Whatever the request, [enroll] leaves the questions, the choices and
    the submissions as they were, creates and deletes no course, changes no
    course but the one named, keeps the name and the description of that one
    and raises its counter by 0 or 1; every enrollment row stays as it was,
    and a row that was not there before is the requesting user's, for the
    named course, in mode honor, dated with the day of the request. *)
Theorem enroll_frame (request : HttpRequest) (course_id : pk) (db : DB) :
  let db' := (enroll request course_id db).1 in
  Question_objects db' = Question_objects db
  ∧ Choice_objects db' = Choice_objects db
  ∧ Submission_objects db' = Submission_objects db
  ∧ (∀ c, c ≠ course_id → Course_objects db' !! c = Course_objects db !! c)
  ∧ (∀ c, Course_objects db !! c = None → Course_objects db' !! c = None)
  ∧ (∀ c course, Course_objects db !! c = Some course →
       ∃ course', Course_objects db' !! c = Some course'
                  ∧ name course' = name course
                  ∧ description course' = description course
                  ∧ total_enrollment course ≤ total_enrollment course'
                    ≤ total_enrollment course + 1)
  ∧ (∀ id e, Enrollment_objects db !! id = Some e →
             Enrollment_objects db' !! id = Some e)
  ∧ (∀ id e, Enrollment_objects db' !! id = Some e →
             Enrollment_objects db !! id = Some e
             ∨ ∃ uid, user request = AuthenticatedUser uid
                      ∧ e = {| enrollment_user := uid;
                               enrollment_course := course_id;
                               date_enrolled := now request; mode := HONOR |}).
Proof.
  intros db'. unfold db'.
  destruct (enroll_state request course_id db)
    as [-> | (uid & course & Hu & Hc & Hnew & ->)].
  - do 5 (split; [done|]). split; [|split].
    + intros c course Hc. exists course. repeat split; [done|lia|lia].
    + done.
    + intros id e He. by left.
  - do 3 (split; [done|]). split; [|split; [|split; [|split]]].
    + intros c Hne. rewrite Course_objects_with_enrollment.
      by rewrite decide_False.
    + intros c Hnone. rewrite Course_objects_with_enrollment.
      case_decide; [congruence|done].
    + intros c course0 Hc0. rewrite Course_objects_with_enrollment.
      case_decide as Heq.
      * subst c. assert (course0 = course) as -> by congruence.
        eexists. split; [done|]. simpl. repeat split; lia.
      * exists course0. repeat split; [done|lia|lia].
    + intros id e He. unfold with_enrollment. simpl.
      rewrite lookup_insert_ne; [done|]. intros <-.
      by rewrite next_pk_fresh in He.
    + intros id e. unfold with_enrollment. simpl.
      destruct (decide (next_pk (Enrollment_objects db) = id)) as [<-|Hne].
      * rewrite lookup_insert_eq. intros [= <-]. right. by exists uid.
      * rewrite lookup_insert_ne by done. by left.
Qed.

(** X16. After [enroll] has served an authenticated user on an existing
    course the user has an enrollment for the course, whether it was there
    before or not: [check_if_enrolled] answers [True] on the state left. *)
Theorem enroll_then_enrolled (request : HttpRequest) (db : DB)
    (course_id uid : pk) (course : Course) :
  user request = AuthenticatedUser uid →
  Course_objects db !! course_id = Some course →
  let db' := (enroll request course_id db).1 in
  enrolled db' uid course_id
  ∧ check_if_enrolled (user request) course_id db' = (db', inr true).
Proof.
  intros Hu Hc db'.
  assert (enrolled db' uid course_id) as Henrolled.
  { unfold db'. rewrite enroll_run, Hc, Hu. case_decide as Hempty.
    - cbn [fst]. exists (next_pk (Enrollment_objects db)). eexists.
      split; [apply lookup_insert_eq|done].
    - cbn [fst]. rewrite Enrollment_filter_empty in Hempty.
      by destruct (decide (enrolled db uid course_id)). }
  split; [done|]. rewrite check_if_enrolled_run, Hu.
  rewrite bool_decide_eq_true_2; [done|]. rewrite Enrollment_filter_empty. tauto.
Qed.

Lemma enroll_then_enrolled_witness :
  let db' := (enroll (Sample.request_of (AuthenticatedUser 8)) 1 Sample.exam_db).1 in
  enrolled db' 8 1
  ∧ check_if_enrolled (AuthenticatedUser 8) 1 db' = (db', inr true).
Proof.
  apply (enroll_then_enrolled (Sample.request_of (AuthenticatedUser 8))
           Sample.exam_db 1 8
           {| name := "Python"; description := "basics"; total_enrollment := 1 |});
    reflexivity.
Defined.

Lemma enroll_preserves_at_most_once (request : HttpRequest) (course_id : pk)
    (db : DB) :
  enrolled_at_most_once db →
  enrolled_at_most_once (enroll request course_id db).1.
Proof.
  intros Hinv.
  destruct (enroll_state request course_id db)
    as [-> | (uid & course & Hu & Hc & Hnew & ->)]; [done|].
  intros id1 id2 e1 e2. unfold with_enrollment. simpl.
  destruct (decide (next_pk (Enrollment_objects db) = id1)) as [<-|Hne1];
    destruct (decide (next_pk (Enrollment_objects db) = id2)) as [<-|Hne2].
  - done.
  - rewrite lookup_insert_eq, lookup_insert_ne by done.
    intros [= <-] He2 Huser Hcourse. simpl in *. destruct Hnew.
    by exists id2, e2.
  - rewrite lookup_insert_eq, lookup_insert_ne by done.
    intros He1 [= <-] Huser Hcourse. simpl in *. destruct Hnew.
    by exists id1, e1.
  - rewrite !lookup_insert_ne by done. apply Hinv.
Qed.

(** X17. Served one after the other, [enroll] requests never give a learner
    a second enrollment row for a course: if no learner has two rows for one
    course before, none has after. *)
Theorem enroll_all_preserves_at_most_once (calls : list (HttpRequest * pk))
    (db : DB) :
  enrolled_at_most_once db → enrolled_at_most_once (enroll_all calls db).
Proof.
  revert db. induction calls as [|call calls IH]; intros db Hinv; [done|].
  rewrite enroll_all_cons. by apply IH, enroll_preserves_at_most_once.
Qed.

Lemma exam_db_at_most_once : enrolled_at_most_once Sample.exam_db.
Proof.
  intros id1 id2 e1 e2 H1. revert id2 e2. revert id1 e1 H1.
  change (map_Forall
            (λ (id1 : pk) (e1 : Enrollment),
               map_Forall
                 (λ (id2 : pk) (e2 : Enrollment),
                    enrollment_user e1 = enrollment_user e2 →
                    enrollment_course e1 = enrollment_course e2 → id1 = id2)
                 (Enrollment_objects Sample.exam_db))
            (Enrollment_objects Sample.exam_db)).
  apply (bool_decide_unpack _). vm_compute. exact I.
Qed.

Lemma enroll_all_preserves_at_most_once_witness :
  enrolled_at_most_once
    (enroll_all [ (Sample.request_of (AuthenticatedUser 8), 1);
                  (Sample.request_of (AuthenticatedUser 8), 1);
                  (Sample.request_of (AuthenticatedUser 7), 1) ]
                Sample.exam_db).
Proof.
  apply enroll_all_preserves_at_most_once, exam_db_at_most_once.
Defined.

Lemma enroll_counter_follows_rows (request : HttpRequest) (course_id : pk)
    (db : DB) (c : pk) (course : Course) :
  Course_objects db !! c = Some course →
  ∃ course',
    Course_objects (enroll request course_id db).1 !! c = Some course'
    ∧ total_enrollment course' - total_enrollment course
      = Z.of_nat (enrollment_rows (enroll request course_id db).1 c)
        - Z.of_nat (enrollment_rows db c)
    ∧ total_enrollment course ≤ total_enrollment course'
      ≤ total_enrollment course + 1.
Proof.
  intros Hc.
  destruct (enroll_state request course_id db)
    as [-> | (uid & course0 & Hu & Hc0 & Hnew & ->)].
  - exists course. split; [done|]. lia.
  - rewrite Course_objects_with_enrollment, enrollment_rows_with_enrollment.
    case_decide as Heq.
    + subst c. assert (course0 = course) as -> by congruence.
      eexists. split; [done|]. simpl. lia.
    + exists course. split; [done|]. lia.
Qed.

(** X18. From any state, consistent or not, and for any list of [enroll]
    requests served one after the other, the counter of a course that is at
    least as many steps below the largest value of its column as there are
    requests grows by exactly the number of enrollment rows added for the
    course, and never decreases. *)
Theorem enroll_all_counter_follows_rows (calls : list (HttpRequest * pk))
    (db : DB) (c : pk) (course : Course) :
  Course_objects db !! c = Some course →
  total_enrollment course + Z.of_nat (length calls) ≤ IntegerField_max →
  ∃ course',
    Course_objects (enroll_all calls db) !! c = Some course'
    ∧ total_enrollment course' - total_enrollment course
      = Z.of_nat (enrollment_rows (enroll_all calls db) c)
        - Z.of_nat (enrollment_rows db c)
    ∧ total_enrollment course ≤ total_enrollment course' ≤ IntegerField_max.
Proof.
  revert db course.
  induction calls as [|call calls IH]; intros db course Hc Hbound.
  - exists course. split; [done|]. simpl in *. lia.
  - rewrite enroll_all_cons.
    destruct (enroll_counter_follows_rows call.1 call.2 db c course Hc)
      as (course1 & Hc1 & Hdelta1 & Hle1).
    destruct (IH _ _ Hc1) as (course' & Hc' & Hdelta & Hle).
    { rewrite length_cons in Hbound. lia. }
    exists course'. split; [done|]. lia.
Qed.

Lemma enroll_all_counter_follows_rows_witness :
  let calls := [ (Sample.request_of (AuthenticatedUser 8), 1);
                 (Sample.request_of (AuthenticatedUser 9), 1);
                 (Sample.request_of (AuthenticatedUser 8), 1) ] in
  ∃ course',
    Course_objects (enroll_all calls Sample.twice_enrolled_db) !! 1 = Some course'
    ∧ total_enrollment course' = 4.
Proof.
  intros calls.
  edestruct (enroll_all_counter_follows_rows calls Sample.twice_enrolled_db 1)
    as (course' & Hc & Hdelta & _); [reflexivity | by vm_compute |].
  exists course'. split; [exact Hc|].
  assert (Z.of_nat (enrollment_rows (enroll_all calls Sample.twice_enrolled_db) 1)
          = 4) as Hafter by (vm_compute; reflexivity).
  assert (Z.of_nat (enrollment_rows Sample.twice_enrolled_db 1) = 2) as Hbefore
    by (vm_compute; reflexivity).
  rewrite Hafter, Hbefore in Hdelta. simpl in Hdelta. lia.
Defined.

(** *** The course list *)

#[local] Instance more_enrolled_transitive : Transitive more_enrolled.
Proof. intros a b c. unfold more_enrolled. lia. Qed.

#[local] Instance more_enrolled_total : Total more_enrolled.
Proof. intros a b. unfold more_enrolled. lia. Qed.

Section top_courses.
Variable db : DB.

Let sorted : list (pk * Course) :=
  merge_sort more_enrolled (map_to_list (Course_objects db)).

Lemma sorted_Permutation : sorted ≡ₚ map_to_list (Course_objects db).
Proof. apply merge_sort_Permutation. Qed.

Lemma sorted_split : top_courses db ++ drop 10 sorted = sorted.
Proof. apply take_drop. Qed.

Lemma top_courses_length :
  length (top_courses db) = (10 `min` size (Course_objects db))%nat.
Proof.
  unfold top_courses. fold sorted.
  by rewrite length_take, sorted_Permutation, length_map_to_list.
Qed.

Lemma top_courses_NoDup : NoDup (top_courses db).*1.
Proof.
  unfold top_courses. fold sorted. rewrite fmap_take.
  eapply sublist_NoDup; [|apply sublist_take].
  rewrite sorted_Permutation. apply NoDup_fst_map_to_list.
Qed.

Lemma top_courses_rows (c : pk) (course : Course) :
  (c, course) ∈ top_courses db → Course_objects db !! c = Some course.
Proof.
  intros Hin. apply elem_of_map_to_list. rewrite <-sorted_Permutation.
  by apply (subseteq_take 10).
Qed.

Lemma top_courses_sorted : StronglySorted more_enrolled (top_courses db).
Proof.
  apply (StronglySorted_app_1_l _ _ (drop 10 sorted)). rewrite sorted_split.
  apply StronglySorted_merge_sort; apply _.
Qed.

Lemma top_courses_lookup_sorted (i j : nat) (a b : pk * Course) :
  (i < j)%nat →
  top_courses db !! i = Some a → top_courses db !! j = Some b →
  more_enrolled a b.
Proof.
  intros Hij Ha Hb.
  pose proof top_courses_sorted as Hs.
  rewrite <-(take_drop j (top_courses db)) in Hs.
  eapply StronglySorted_app_1_elem_of; [exact Hs| |].
  - apply elem_of_take. by exists i.
  - apply list_elem_of_lookup. exists 0%nat. rewrite lookup_drop.
    by rewrite Nat.add_0_r.
Qed.

Lemma top_courses_top (c : pk) (course : Course) (x : pk * Course) :
  Course_objects db !! c = Some course →
  c ∉ (top_courses db).*1 →
  x ∈ top_courses db →
  more_enrolled x (c, course).
Proof.
  intros Hc Hout Hx.
  assert ((c, course) ∈ sorted) as Hin
    by (rewrite sorted_Permutation; by apply elem_of_map_to_list).
  rewrite <-sorted_split in Hin. apply elem_of_app in Hin as [Hin|Hin].
  - destruct Hout. apply list_elem_of_fmap. by exists (c, course).
  - eapply StronglySorted_app_1_elem_of; [|exact Hx|exact Hin].
    rewrite sorted_split. apply StronglySorted_merge_sort; apply _.
Qed.

End top_courses.

Lemma mark_enrolled_run (u : User) (db : DB) (listed : list ListedCourse)
    (course : pk * Course) :
  mark_enrolled u listed course db
  = (db, inr (listed ++
              [{| listed_id := course.1; listed_course := course.2;
                  is_enrolled :=
                    match u with
                    | AuthenticatedUser uid =>
                        bool_decide (Enrollment_filter db uid course.1 ≠ ∅)
                    | AnonymousUser => false
                    end |}])).
Proof.
  unfold mark_enrolled. destruct u as [uid|]; simpl; [|done].
  by rewrite run_bind, check_if_enrolled_run.
Qed.

(** The [is_enrolled] attribute the loop leaves on a course. *)
Lemma for_each_mark_enrolled_run (u : User) (db : DB)
    (courses : list (pk * Course)) (listed : list ListedCourse) :
  for_each courses (mark_enrolled u) listed db
  = (db, inr (listed ++
              ((λ course : pk * Course,
                  {| listed_id := course.1; listed_course := course.2;
                     is_enrolled :=
                       match u with
                       | AuthenticatedUser uid =>
                           bool_decide (Enrollment_filter db uid course.1 ≠ ∅)
                       | AnonymousUser => false
                       end |}) <$> courses))).
Proof.
  revert listed. induction courses as [|course courses IH]; intros listed; simpl.
  - by rewrite app_nil_r.
  - rewrite run_bind, mark_enrolled_run, IH. by rewrite <-app_assoc.
Qed.

Lemma get_queryset_run (request : HttpRequest) (db : DB) :
  get_queryset request db
  = (db, inr ((λ course : pk * Course,
                 {| listed_id := course.1; listed_course := course.2;
                    is_enrolled :=
                      match user request with
                      | AuthenticatedUser uid =>
                          bool_decide (Enrollment_filter db uid course.1 ≠ ∅)
                      | AnonymousUser => false
                      end |}) <$> top_courses db)).
Proof.
  unfold get_queryset. rewrite run_gets_bind.
  by rewrite for_each_mark_enrolled_run.
Qed.

(** X19. [get_queryset] writes nothing and lists at most ten courses, all of
    them if there are no more than ten: each listed course is a row of the
    table, none is listed twice, the list runs from higher to lower
    [total_enrollment], and no course left out has a higher
    [total_enrollment] than a listed one. *)
Theorem get_queryset_top_ten (request : HttpRequest) (db : DB) :
  ∃ listed,
    get_queryset request db = (db, inr listed)
    ∧ length listed = (10 `min` size (Course_objects db))%nat
    ∧ NoDup (listed_id <$> listed)
    ∧ (∀ item, item ∈ listed →
         Course_objects db !! listed_id item = Some (listed_course item))
    ∧ (∀ i j a b, (i < j)%nat → listed !! i = Some a → listed !! j = Some b →
         total_enrollment (listed_course b) ≤ total_enrollment (listed_course a))
    ∧ (∀ c course item,
         Course_objects db !! c = Some course →
         c ∉ listed_id <$> listed →
         item ∈ listed →
         total_enrollment course ≤ total_enrollment (listed_course item)).
Proof.
  eexists. split; [apply get_queryset_run|].
  set (mk := λ course : pk * Course, _).
  assert (listed_id <$> (mk <$> top_courses db) = (top_courses db).*1) as Hids.
  { rewrite <-list_fmap_compose. by apply list_fmap_ext. }
  split; [by rewrite length_fmap, top_courses_length|].
  split; [rewrite Hids; apply top_courses_NoDup|].
  split; [|split].
  - intros item Hin. apply list_elem_of_fmap in Hin as ([c course] & -> & Hin).
    simpl. by apply top_courses_rows.
  - intros i j a b Hij Ha Hb. rewrite list_lookup_fmap in Ha, Hb.
    destruct (top_courses db !! i) as [x|] eqn:Hx; [|done].
    destruct (top_courses db !! j) as [y|] eqn:Hy; [|done].
    simpl in Ha, Hb. simplify_eq. simpl.
    by apply (top_courses_lookup_sorted db i j x y).
  - intros c course item Hc Hout Hin. rewrite Hids in Hout.
    apply list_elem_of_fmap in Hin as (x & -> & Hin). simpl.
    by apply (top_courses_top db c course x).
Qed.

(** X20. In the list of [get_queryset] a course is marked [is_enrolled]
    exactly when the user of the request is authenticated and has an
    enrollment for it; for an anonymous user no course is marked. *)
Theorem get_queryset_marks_enrolled (request : HttpRequest) (db : DB) :
  ∃ listed,
    get_queryset request db = (db, inr listed)
    ∧ ∀ item, item ∈ listed →
        (is_enrolled item = true
         ↔ ∃ uid, user request = AuthenticatedUser uid
                  ∧ enrolled db uid (listed_id item)).
Proof.
  eexists. split; [apply get_queryset_run|]. intros item Hin.
  apply list_elem_of_fmap in Hin as ([c course] & -> & Hin). simpl.
  destruct (user request) as [uid|].
  - rewrite bool_decide_eq_true, Enrollment_filter_empty. split.
    + intros H. exists uid. split; [done|].
      by destruct (decide (enrolled db uid c)) as [|Hn]; [|destruct (H Hn)].
    + intros (uid' & [= <-] & He) Hn. by apply Hn.
  - split; [done|]. by intros (uid & [=] & _).
Qed.
